(** * cargo-cpl: the documentation-page injection script

    A shallow embedding of the three variants of the injection script
    (the compiled script [src/unnamed/part_000] and the two TypeScript
    files joined in [src/injection/index.ts]) over a small model of the
    DOM, and the properties of the page they produce.

    The page is a tree of HTML elements and text nodes.  A reference to a
    node that is attached to the document is the path that leads to it
    from the root element; detached nodes under construction are plain
    values.  Every mutation of the page is a function from documents to
    documents.

    The model covers what the script meets on a page written by the
    documentation generator: an HTML document in no-quirks mode, whose
    elements are HTML elements with valid names.  An element of another
    namespace is a node whose tag name is not in upper case, as the
    DOM reports it; the properties that need HTML elements say so.
    The [InvalidCharacterError] that [createElement] and
    [setAttribute] raise on names that are not valid is left out. *)

From stdpp Require Import list strings sorting.
From Stdlib Require Import Ascii DecimalString ZArith Lia.
From Stdlib Require DecimalN DecimalPos.

(** ** JavaScript strings and numbers *)

Module Js.

(** ASCII case mapping, as the DOM applies it to element and attribute
    names of an HTML document. *)
Definition upper_ascii (c : ascii) : ascii :=
  let n := nat_of_ascii c in
  if (97 <=? n)%nat && (n <=? 122)%nat then ascii_of_nat (n - 32) else c.

Definition lower_ascii (c : ascii) : ascii :=
  let n := nat_of_ascii c in
  if (65 <=? n)%nat && (n <=? 90)%nat then ascii_of_nat (n + 32) else c.

Fixpoint map_string (f : ascii -> ascii) (s : string) : string :=
  match s with
  | EmptyString => EmptyString
  | String c s' => String (f c) (map_string f s')
  end.

Definition toUpperCase : string -> string := map_string upper_ascii.
Definition toLowerCase : string -> string := map_string lower_ascii.

(** [s.endsWith(suffix)] *)
Definition endsWith (s suffix : string) : bool :=
  let n := String.length s in
  let m := String.length suffix in
  if (m <=? n)%nat then String.eqb (String.substring (n - m) m s) suffix else false.

(** [ToString] of a number whose value is a natural number below
    10^21: its decimal digits. *)
Definition string_of_N (n : N) : string :=
  NilZero.string_of_uint (N.to_uint n).

Definition string_of_nat (n : nat) : string :=
  NilZero.string_of_uint (Nat.to_uint n).

(** [Number.MAX_SAFE_INTEGER]: up to it every natural number is a
    floating-point number, and the quotients, remainders and products
    computed on such numbers below are exact. *)
Definition MAX_SAFE_INTEGER : N := 9007199254740991.

End Js.

(** ** The document object model *)

Module Dom.

#[warnings="-register-all"]
Inductive node : Type :=
| Text (data : string)
| Element (tagName : string) (attributes : list (string * string))
          (childNodes : list node).

Definition tagName (n : node) : string :=
  match n with Text _ => "" | Element t _ _ => t end.

Definition attributes (n : node) : list (string * string) :=
  match n with Text _ => [] | Element _ a _ => a end.

Definition childNodes (n : node) : list node :=
  match n with Text _ => [] | Element _ _ cs => cs end.

Definition isElement (n : node) : bool :=
  match n with Text _ => false | Element _ _ _ => true end.

(** What [append] and [prepend] accept: nodes, and strings that they
    turn into text nodes. *)
Inductive item : Type :=
| Nd (n : node)
| Str (s : string).

Definition toNode (i : item) : node :=
  match i with Nd n => n | Str s => Text s end.

(** [document.createElement(localName)]: an HTML element, whose
    [tagName] is reported in upper case. *)
Definition createElement (localName : string) : node :=
  Element (Js.toUpperCase localName) [] [].

Definition createTextNode (data : string) : node := Text data.

(** The attribute list of an element holds each name once;
    [setAttribute] overwrites the value of a name that is present and
    adds the attribute at the end otherwise. *)
Fixpoint set_attr (name value : string) (l : list (string * string))
  : list (string * string) :=
  match l with
  | [] => [(name, value)]
  | (n, v) :: l' =>
      if String.eqb n name then (n, value) :: l'
      else (n, v) :: set_attr name value l'
  end.

(** [element.setAttribute(name, value)]; an HTML element lower-cases
    the name. *)
Definition setAttribute (name value : string) (e : node) : node :=
  match e with
  | Text _ => e
  | Element t a cs => Element t (set_attr (Js.toLowerCase name) value a) cs
  end.

Fixpoint get_attr (name : string) (l : list (string * string))
  : option string :=
  match l with
  | [] => None
  | (n, v) :: l' => if String.eqb n name then Some v else get_attr name l'
  end.

Definition getAttribute (name : string) (e : node) : option string :=
  get_attr name (attributes e).

(** [element.append(...items)] and [element.prepend(...items)] on a
    detached element. *)
Definition append (items : list item) (e : node) : node :=
  match e with
  | Text _ => e
  | Element t a cs => Element t a (cs ++ (toNode <$> items))
  end.

Definition prependTo (items : list item) (e : node) : node :=
  match e with
  | Text _ => e
  | Element t a cs => Element t a ((toNode <$> items) ++ cs)
  end.

(** *** Class selectors *)

(** ASCII whitespace, which separates the tokens of a [class]
    attribute. *)
Definition is_ascii_whitespace (c : ascii) : bool :=
  match nat_of_ascii c with
  | 9 | 10 | 12 | 13 | 32 => true
  | _ => false
  end.

(** The tokens of [s]; [cur] is the token being read, reversed. *)
Fixpoint tokens_go (cur : string) (s : string) : list string :=
  match s with
  | EmptyString =>
      match cur with EmptyString => [] | _ => [String.rev cur] end
  | String c s' =>
      if is_ascii_whitespace c then
        match cur with
        | EmptyString => tokens_go EmptyString s'
        | _ => String.rev cur :: tokens_go EmptyString s'
        end
      else tokens_go (String c cur) s'
  end.

Definition classList (e : node) : list string :=
  match getAttribute "class" e with
  | None => []
  | Some v => tokens_go EmptyString v
  end.

(** [element.matches("." + cls)] in a document in no-quirks mode. *)
Definition matchesClass (cls : string) (e : node) : bool :=
  isElement e && existsb (String.eqb cls) (classList e).

(** *** References into the document *)

(** A node of the document is referred to by the child indices that
    lead to it from the root element. *)
Abbreviation ref := (list nat).

Fixpoint deref (r : ref) (n : node) : option node :=
  match r with
  | [] => Some n
  | i :: r' =>
      match childNodes n !! i with
      | None => None
      | Some c => deref r' c
      end
  end.

(** The document in which the node at [r] has become [f] of itself. *)
Fixpoint update (f : node -> node) (r : ref) (n : node) : node :=
  match r with
  | [] => f n
  | i :: r' =>
      match n with
      | Text _ => n
      | Element t a cs => Element t a (alter (update f r') i cs)
      end
  end.

(** The inclusive descendants of [n] that satisfy [sel], in tree
    order, as references relative to [n]. *)
Fixpoint matching (sel : node -> bool) (n : node) : list ref :=
  match n with
  | Text _ => []
  | Element _ _ cs =>
      (if sel n then [[]] else []) ++
      (fix children (i : nat) (l : list node) : list ref :=
         match l with
         | [] => []
         | c :: l' => (cons i <$> matching sel c) ++ children (S i) l'
         end) 0%nat cs
  end.

Fixpoint matchingFrom (sel : node -> bool) (i : nat) (l : list node)
  : list ref :=
  match l with
  | [] => []
  | c :: l' => (cons i <$> matching sel c) ++ matchingFrom sel (S i) l'
  end.

(** [document.querySelector("." + cls)]: the first element of the
    document, in tree order, that has the class. *)
Definition querySelector (cls : string) (doc : node) : option ref :=
  head (matching (matchesClass cls) doc).

(** [element.querySelectorAll("." + cls)] for the element at [r]: its
    descendants (itself excluded) that have the class, in tree order. *)
Definition querySelectorAll (r : ref) (cls : string) (doc : node)
  : list ref :=
  match deref r doc with
  | None => []
  | Some e => (app r) <$> matchingFrom (matchesClass cls) 0 (childNodes e)
  end.

(** [list] with [x] inserted before position [i]. *)
Definition insertAt {A} (i : nat) (x : A) (l : list A) : list A :=
  take i l ++ x :: drop i l.

(** [target.insertAdjacentElement("afterend", e)]: [e] becomes the
    next sibling of the element at [target].  The parent of the root
    element is the document itself, which takes no second element
    child: the call raises [HierarchyRequestError] there, modelled by
    [None]. *)
Fixpoint insertAfter (target : ref) (e : node) (doc : node) : option node :=
  match target with
  | [] => None
  | [i] =>
      match doc with
      | Text _ => None
      | Element t a cs => Some (Element t a (insertAt (S i) e cs))
      end
  | i :: (_ :: _) as target' =>
      match doc with
      | Text _ => None
      | Element t a cs =>
          match cs !! i with
          | None => None
          | Some c =>
              match insertAfter target' e c with
              | None => None
              | Some c' => Some (Element t a (<[i := c']> cs))
              end
          end
      end
  end.

(** The reference to the [k]-th next sibling of [r]. *)
Fixpoint sibling (k : nat) (r : ref) : ref :=
  match r with
  | [] => []
  | [i] => [(i + k)%nat]
  | i :: r' => i :: sibling k r'
  end.

(** [element.prepend(...items)] for the element at [r]. *)
Definition prepend (r : ref) (items : list item) (doc : node) : node :=
  update (prependTo items) r doc.

End Dom.

Import Dom.

(** ** The page *)

(** How a call ends: it returns, or it raises an exception of the DOM. *)
Inductive DOMException : Type :=
| HierarchyRequestError.

Inductive completion (A : Type) : Type :=
| Return (a : A)
| Throw (e : DOMException).
Arguments Return {A} a.
Arguments Throw {A} e.

(** An event listener reads and mutates the document. *)
Abbreviation listener := (node -> node * completion unit)%type.

(** The state the script sees: [window.location.pathname], the root
    element of [document], and the listeners registered on [document],
    oldest first, each with its event type. *)
Record window : Type := Window {
  pathname : string;
  document : node;
  listeners : list (string * listener)
}.

(** [document.addEventListener(type, callback)] *)
Definition addEventListener (type : string) (callback : listener)
    (w : window) : window :=
  {| pathname := pathname w;
     document := document w;
     listeners := listeners w ++ [(type, callback)] |}.

(** The listeners of an event run in turn on the document; an exception
    raised by one ends that listener and is reported, not propagated. *)
Fixpoint runListeners (type : string) (ls : list (string * listener))
    (doc : node) : node :=
  match ls with
  | [] => doc
  | (ty, callback) :: ls' =>
      if String.eqb ty type
      then runListeners type ls' (fst (callback doc))
      else runListeners type ls' doc
  end.

(** The browser fires an event of the given type on [document]. *)
Definition dispatchEvent (type : string) (w : window) : window :=
  {| pathname := pathname w;
     document := runListeners type (listeners w) (document w);
     listeners := listeners w |}.

(** ** What the three files share

    [createHeader] and [downgradeSectionHeaders] are the same in the
    three files; [findOrCreateDocblock], [createToggleWrapper],
    [createMark], [createHeavyCheckMark], [createWarningMark] and the
    [createVerifiedWithSection] with a status line are the same in
    [part_000] and in the second file of [index.ts]. *)

(** [createHeader(name, id)] *)
Definition createHeader (name id : string) : node :=
  let header := createElement "h1" in
  let header := setAttribute "id" id header in
  let header := setAttribute "class" "section-header" header in
  let a := createElement "a" in
  let a := setAttribute "href" ("#" +:+ id) a in
  let a := append [Nd (createTextNode name)] a in
  let header := append [Nd a] header in
  header.

(** The tag the [switch] of [downgradeSectionHeaders] selects. *)
Definition downgradedTagName (tagName : string) : string :=
  if String.eqb tagName "H1" then "H2"
  else if String.eqb tagName "H2" then "H3"
  else if String.eqb tagName "H3" then "H4"
  else if String.eqb tagName "H4" then "H5"
  else if String.eqb tagName "H5" then "H6"
  else tagName.

(** The body of the [forEach] callback up to [replaceWith]: the element
    built for [sectionHeader], which takes over its children. *)
Definition replacementFor (sectionHeader : node) : node :=
  let replacement := createElement (downgradedTagName (tagName sectionHeader)) in
  let replacement :=
    fold_left (fun replacement '(name, value) => setAttribute name value replacement)
              (attributes sectionHeader) replacement in
  let replacement := append (Nd <$> childNodes sectionHeader) replacement in
  replacement.

(** [sectionHeader.replaceWith(replacement)] for the element at [r]. *)
Definition replaceWith (r : ref) (replacement : node) (doc : node) : node :=
  update (fun _ => replacement) r doc.

(** The callback that [downgradeSectionHeaders] gives to [forEach], for
    the element at [sectionHeader]. *)
Definition downgradeStep (doc : node) (sectionHeader : ref) : node :=
  match deref sectionHeader doc with
  | None => doc
  | Some e => replaceWith sectionHeader (replacementFor e) doc
  end.

(** [downgradeSectionHeaders(docblock)]: [querySelectorAll] returns a
    static list, which [forEach] walks in order. *)
Definition downgradeSectionHeaders (docblock : ref) (doc : node) : node :=
  fold_left downgradeStep (querySelectorAll docblock "section-header" doc) doc.

(** [createToggleWrapper()] *)
Definition createToggleWrapper : node :=
  let toggleWrapper := createElement "div" in
  let a := createElement "a" in
  let span1 := createElement "span" in
  let span2 := createElement "span" in
  let toggleWrapper := setAttribute "class" "toggle-wrapper" toggleWrapper in
  let a := setAttribute "class" "collapse-toggle" a in
  let a := setAttribute "href" "javascript:void(0)" a in
  let span1 := setAttribute "class" "inner" span1 in
  let span2 := setAttribute "class" "toggle-label" span2 in
  let span2 := setAttribute "style" "display: none;" span2 in
  let span1 := append [Str "-"] span1 in
  let span2 := append [Str " Expand description"] span2 in
  let a := append [Str "["; Nd span1; Str "] "; Nd span2] a in
  let toggleWrapper := append [Nd a] toggleWrapper in
  toggleWrapper.

(** [findOrCreateDocblock()]: the document it leaves and the reference
    it returns ([None] for [null]). *)
Definition findOrCreateDocblock (doc : node) : node * completion (option ref) :=
  match querySelector "docblock" doc with
  | Some docblock => (doc, Return (Some docblock))
  | None =>
      match querySelector "fqn" doc with
      | None => (doc, Return None)
      | Some fqn =>
          let docblock := createElement "div" in
          let docblock := setAttribute "class" "docblock" docblock in
          match insertAfter fqn docblock doc with
          | None => (doc, Throw HierarchyRequestError)
          | Some doc1 =>
              match insertAfter fqn createToggleWrapper doc1 with
              | None => (doc1, Throw HierarchyRequestError)
              | Some doc2 => (doc2, Return (Some (sibling 2 fqn)))
              end
          end
      end
  end.

(** [createMark(src, char)] *)
Definition createMark (src char : string) : node :=
  let mark := createElement "img" in
  let mark := setAttribute "src" src mark in
  let mark := setAttribute "alt" char mark in
  let mark := setAttribute "title" char mark in
  let mark := setAttribute "width" "20" mark in
  let mark := setAttribute "height" "20" mark in
  mark.

Definition createHeavyCheckMark : node :=
  createMark "https://github.githubassets.com/images/icons/emoji/unicode/2714.png" "✔".

Definition createWarningMark : node :=
  createMark "https://github.githubassets.com/images/icons/emoji/unicode/26a0.png" "⚠".

(** The body of the [for] loop over [verifiedWith], the same in the
    three files: the list item of one pair. *)
Definition verifiedWithItem (pair : string * string) : node :=
  let '(problemURL, blobURL) := pair in
  let li := createElement "li" in
  let a1 := createElement "a" in
  let a1 := setAttribute "href" problemURL a1 in
  let a1 := append [Str problemURL] a1 in
  let a2 := createElement "a" in
  let a2 := setAttribute "href" blobURL a2 in
  let a2 := append [Str "code"] a2 in
  let li := append [Nd a1; Str " ("; Nd a2; Str ")"] li in
  li.

(** [createVerifiedWithSection(verifiedWith)] of [part_000] and of the
    second file of [index.ts]. *)
Definition createVerifiedWithSection (verifiedWith : list (string * string)) : node :=
  let div := createElement "div" in
  let div :=
    match length verifiedWith with
    | 0 =>
        let strong := createElement "strong" in
        let strong := append [Nd createWarningMark; Str " This library is not verified."] strong in
        append [Nd strong] div
    | 1 =>
        append [Nd createHeavyCheckMark; Str " This library verified with 1 solution."] div
    | _ =>
        append [Nd createHeavyCheckMark;
                Str (" This library verified with " +:+ Js.string_of_nat (length verifiedWith)
                     +:+ " solutions.")] div
    end in
  let ul := createElement "ul" in
  let ul := fold_left (fun ul pair => append [Nd (verifiedWithItem pair)] ul) verifiedWith ul in
  let div := append [Nd ul] div in
  div.

(** [createCargoAddCommandSection(cargoAddCommand)] of [part_000], which
    the two files of [index.ts] call [createDependencySection]. *)
Definition createCargoAddCommandSection (cargoAddCommand : string) : node :=
  let pre := createElement "pre" in
  let code := createElement "code" in
  let code := setAttribute "class" "language-console" code in
  let code := append [Str ("$ " +:+ cargoAddCommand +:+ String "010"%char "")] code in
  let pre := append [Nd code] pre in
  pre.

(** ** [src/unnamed/part_000] *)

Module Part000.

(** The values of [codeSizeUnmodified] other than [null]: a number, a
    count of bytes, or a string. *)
Inductive codeSize : Type :=
| SizeNumber (bytes : N)
| SizeString (text : string).

(** [createCodeSizeSection(codeSizeUnmodified)] *)
Definition createCodeSizeSection (codeSizeUnmodified : codeSize) : node :=
  let ul := createElement "ul" in
  let li1 := createElement "li" in
  let li1 := append [Str "unmodified: "] li1 in
  let li1 :=
    match codeSizeUnmodified with
    | SizeNumber bytes =>
        let div := (bytes / 1024)%N in
        let rem := (bytes mod 1024)%N in
        append [Str ("" +:+ Js.string_of_N div +:+ "." +:+
                     Js.string_of_N ((10 * rem) / 1024)%N +:+ " KiB")] li1
    | SizeString text =>
        let code := createElement "code" in
        let code := append [Str text] code in
        append [Nd code] li1
    end in
  let li1 := append [Str " + (not yet implemented) KiB"] li1 in
  let li2 := createElement "li" in
  let li3 := createElement "li" in
  let code1 := createElement "code" in
  let code2 := createElement "code" in
  let code1 := append [Str "#[cfg]"] code1 in
  let code2 := append [Str "#[cfg]"] code2 in
  let li2 := append [Nd code1; Str " resolved + (doc-)comment removed + Rustfmt: (not yet implemented)"] li2 in
  let li3 := append [Nd code2; Str " resolved + doc-comment removed + minified: (not yet implemented)"] li3 in
  let ul := append [Nd li1; Nd li2; Nd li3] ul in
  ul.

(** The body of the [for] loop of [createDependenciesSection]. *)
Definition dependencyItem (pair : string * string) : node :=
  let '(text, href) := pair in
  let li := createElement "li" in
  let a := createElement "a" in
  let a := setAttribute "href" href a in
  let a := append [Str text] a in
  let li := append [Nd a] li in
  li.

(** [createDependenciesSection(items)]: a string for no item, a list
    element otherwise. *)
Definition createDependenciesSection (items : list (string * string)) : item :=
  if (length items =? 0)%nat then Str "No dependencies."
  else
    let ul := createElement "ul" in
    let ul := fold_left (fun ul pair => append [Nd (dependencyItem pair)] ul) items ul in
    Nd ul.

(** [createFirstSection(manifestDirBlobURL, license)] *)
Definition createFirstSection (manifestDirBlobURL license : string) : node :=
  let ul := createElement "ul" in
  let li1 := createElement "li" in
  let a := createElement "a" in
  let li2 := createElement "li" in
  let code := createElement "code" in
  let a := setAttribute "href" manifestDirBlobURL a in
  let a := append [Str "View on GitHub"] a in
  let li1 := append [Nd a] li1 in
  let code := append [Str license] code in
  let li2 := append [Str "License: "; Nd code] li2 in
  let ul := append [Nd li1; Nd li2] ul in
  ul.

(** The listener that [registerModification] registers. *)
Definition onDOMContentLoaded
    (manifestDirBlobURL license cargoAddCommand : string)
    (dependencyUL : list (string * string))
    (codeSizeUnmodified : option codeSize)
    (verifiedWith : list (string * string)) : listener :=
  fun doc =>
    match findOrCreateDocblock doc with
    | (doc, Throw e) => (doc, Throw e)
    | (doc, Return None) => (doc, Return tt)
    | (doc, Return (Some docblock)) =>
        let doc := downgradeSectionHeaders docblock doc in
        let doc := prepend docblock [Nd (createHeader "Description" "description")] doc in
        let doc := prepend docblock [Nd (createVerifiedWithSection verifiedWith)] doc in
        let doc := prepend docblock [Nd (createHeader "Verified with" "verified-with")] doc in
        let doc :=
          match codeSizeUnmodified with
          | Some codeSizeUnmodified =>
              let doc := prepend docblock [Nd (createCodeSizeSection codeSizeUnmodified)] doc in
              let doc := prepend docblock [Nd (createHeader "Code size" "code-size")] doc in
              doc
          | None => doc
          end in
        let doc := prepend docblock [createDependenciesSection dependencyUL] doc in
        let doc := prepend docblock [Nd (createHeader "Dependencies" "dependencies")] doc in
        let doc := prepend docblock [Nd (createCargoAddCommandSection cargoAddCommand)] doc in
        let doc := prepend docblock [Nd (createFirstSection manifestDirBlobURL license)] doc in
        (doc, Return tt)
    end.

(** [registerModification(manifestDirBlobURL, license, cargoAddCommand,
    dependencyUL, codeSizeUnmodified, verifiedWith)] *)
Definition registerModification
    (manifestDirBlobURL license cargoAddCommand : string)
    (dependencyUL : list (string * string))
    (codeSizeUnmodified : option codeSize)
    (verifiedWith : list (string * string)) (w : window) : window :=
  if negb (Js.endsWith (pathname w) "/index.html") then w
  else
    addEventListener "DOMContentLoaded"
      (onDOMContentLoaded manifestDirBlobURL license cargoAddCommand
         dependencyUL codeSizeUnmodified verifiedWith) w.

End Part000.

(** ** [src/injection/index.ts] *)

Module IndexTs.

(** [createCodeSizeSection], [createDependencySection] and
    [createFirstSection] are the same in the two files. *)

(** [createCodeSizeSection(codeSizeUnmodified)]; [li2] is built and
    left out of the list. *)
Definition createCodeSizeSection (codeSizeUnmodified : string) : node :=
  let ul := createElement "ul" in
  let li1 := createElement "li" in
  let li1 := append [Str ("unmodified: " +:+ codeSizeUnmodified +:+
                          " KiB + (not yet implemented) KiB")] li1 in
  let li2 := createElement "li" in
  let li2 := append [Str ""] li2 in
  let ul := append [Nd li1] ul in
  ul.

(** [createDependencySection(cargoAddCommand)] *)
Definition createDependencySection (cargoAddCommand : string) : node :=
  let pre := createElement "pre" in
  let code := createElement "code" in
  let code := setAttribute "class" "language-console" code in
  let code := append [Str ("$ " +:+ cargoAddCommand +:+ String "010"%char "")] code in
  let pre := append [Nd code] pre in
  pre.

(** [createFirstSection(manifestRelPath, manifestHref, license)] *)
Definition createFirstSection (manifestRelPath manifestHref license : string) : node :=
  let ul := createElement "ul" in
  let li1 := createElement "li" in
  let a := createElement "a" in
  let a := setAttribute "href" manifestHref a in
  let code1 := createElement "code" in
  let code1 := append [Str manifestRelPath] code1 in
  let a := append [Nd code1] a in
  let li1 := append [Str "Manifest: "; Nd a] li1 in
  let li2 := createElement "li" in
  let code2 := createElement "code" in
  let code2 := append [Str license] code2 in
  let li2 := append [Str "License: "; Nd code2] li2 in
  let ul := append [Nd li1; Nd li2] ul in
  ul.

(** The first file, whose entry is [modifyDocblock]. *)
Module First.

(** [createVerifiedWithSection(verifiedWith)]: the list alone. *)
Definition createVerifiedWithSection (verifiedWith : list (string * string)) : node :=
  let ul := createElement "ul" in
  let ul := fold_left (fun ul pair => append [Nd (verifiedWithItem pair)] ul) verifiedWith ul in
  ul.

(** [modifyDocblock(manifestRelPath, manifestHref, license,
    cargoAddCommand, codeSizeUnmodified, verifiedWith)] on the
    document. *)
Definition modifyDocument
    (manifestRelPath manifestHref license cargoAddCommand : string)
    (codeSizeUnmodified : option string)
    (verifiedWith : list (string * string)) (doc : node) : node :=
  match querySelector "docblock" doc with
  | Some docblock =>
      let doc := downgradeSectionHeaders docblock doc in
      let doc := prepend docblock [Nd (createHeader "Description" "description")] doc in
      let doc := prepend docblock [Nd (createVerifiedWithSection verifiedWith)] doc in
      let doc := prepend docblock [Nd (createHeader "Verified with" "verified-with")] doc in
      let doc :=
        match codeSizeUnmodified with
        | Some codeSizeUnmodified =>
            let doc := prepend docblock [Nd (createCodeSizeSection codeSizeUnmodified)] doc in
            let doc := prepend docblock [Nd (createHeader "Code size" "code-size")] doc in
            doc
        | None => doc
        end in
      let doc := prepend docblock [Nd (createDependencySection cargoAddCommand)] doc in
      let doc := prepend docblock [Nd (createFirstSection manifestRelPath manifestHref license)] doc in
      doc
  | None => doc
  end.

Definition modifyDocblock
    (manifestRelPath manifestHref license cargoAddCommand : string)
    (codeSizeUnmodified : option string)
    (verifiedWith : list (string * string)) (w : window) : window :=
  {| pathname := pathname w;
     document := modifyDocument manifestRelPath manifestHref license
                   cargoAddCommand codeSizeUnmodified verifiedWith (document w);
     listeners := listeners w |}.

End First.

(** The second file, whose entry is [registerModification]; its
    [createVerifiedWithSection] is the one with a status line. *)
Module Second.

(** The listener that [registerModification] registers. *)
Definition onDOMContentLoaded
    (manifestRelPath manifestHref license cargoAddCommand : string)
    (codeSizeUnmodified : option string)
    (verifiedWith : list (string * string)) : listener :=
  fun doc =>
    match findOrCreateDocblock doc with
    | (doc, Throw e) => (doc, Throw e)
    | (doc, Return None) => (doc, Return tt)
    | (doc, Return (Some docblock)) =>
        let doc := downgradeSectionHeaders docblock doc in
        let doc := prepend docblock [Nd (createHeader "Description" "description")] doc in
        let doc := prepend docblock [Nd (createVerifiedWithSection verifiedWith)] doc in
        let doc := prepend docblock [Nd (createHeader "Verified with" "verified-with")] doc in
        let doc :=
          match codeSizeUnmodified with
          | Some codeSizeUnmodified =>
              let doc := prepend docblock [Nd (createCodeSizeSection codeSizeUnmodified)] doc in
              let doc := prepend docblock [Nd (createHeader "Code size" "code-size")] doc in
              doc
          | None => doc
          end in
        let doc := prepend docblock [Nd (createDependencySection cargoAddCommand)] doc in
        let doc := prepend docblock [Nd (createFirstSection manifestRelPath manifestHref license)] doc in
        (doc, Return tt)
    end.

(** [registerModification(manifestRelPath, manifestHref, license,
    cargoAddCommand, codeSizeUnmodified, verifiedWith)] *)
Definition registerModification
    (manifestRelPath manifestHref license cargoAddCommand : string)
    (codeSizeUnmodified : option string)
    (verifiedWith : list (string * string)) (w : window) : window :=
  if negb (Js.endsWith (pathname w) "/index.html") then w
  else
    addEventListener "DOMContentLoaded"
      (onDOMContentLoaded manifestRelPath manifestHref license
         cargoAddCommand codeSizeUnmodified verifiedWith) w.

End Second.

End IndexTs.

(** ** Running the script on a page *)

(** A page on which the script's entry routine is called and whose
    content then finishes loading. *)
Definition pageLoaded (w : window) : window := dispatchEvent "DOMContentLoaded" w.

(** A page as the documentation generator writes it, with a heading
    inside the docblock, and the same page without its docblock. *)
Definition samplePage : node :=
  Element "HTML" [("lang", "en")] [
    Element "HEAD" [] [Element "TITLE" [] [Text "foo - Rust"]];
    Element "BODY" [] [
      Element "H1" [("class", "fqn")] [Text "Crate foo"];
      Element "DIV" [("class", "docblock")] [
        Element "P" [] [Text "A library."];
        Element "H1" [("id", "usage"); ("class", "section-header")] [
          Element "A" [("href", "#usage")] [Text "Usage"]];
        Element "H6" [("id", "notes"); ("class", "small section-header")] [Text "Notes"]
      ]
    ]
  ].

Definition samplePageWithoutDocblock : node :=
  Element "HTML" [("lang", "en")] [
    Element "HEAD" [] [Element "TITLE" [] [Text "foo - Rust"]];
    Element "BODY" [] [
      Element "H1" [("class", "fqn")] [Text "Crate foo"];
      Element "P" [] [Text "trailer"]
    ]
  ].

Definition samplePageWithoutAnchor : node :=
  Element "HTML" [("lang", "en")] [
    Element "HEAD" [] [Element "TITLE" [] [Text "Index"]];
    Element "BODY" [] [Element "P" [] [Text "No item here."]]
  ].

(** ** Notions the properties are stated with *)

(** An HTML element as a parser or [createElement] yields it: its tag
    name is reported in upper case, its attribute names are in lower
    case and distinct. *)
Definition htmlElement (e : node) : bool :=
  String.eqb (Js.toUpperCase (tagName e)) (tagName e)
  && forallb (fun name => String.eqb (Js.toLowerCase name) name) (fst <$> attributes e)
  && bool_decide (NoDup (fst <$> attributes e)).

(** A tree in which every element marked as a section header, the root
    included, has been replaced, from the leaves up. *)
Fixpoint downgraded (n : node) : node :=
  match n with
  | Text _ => n
  | Element t a cs =>
      let n' := Element t a (downgraded <$> cs) in
      if matchesClass "section-header" n then replacementFor n' else n'
  end.

(** Tree order on references: an element comes before its descendants,
    and these before its next siblings. *)
Fixpoint treeBefore (q p : ref) : Prop :=
  match q, p with
  | [], [] => False
  | [], _ :: _ => True
  | _ :: _, [] => False
  | i :: q', j :: p' => i < j \/ (i = j /\ treeBefore q' p')
  end.

(** The attribute list the [for] loop of [downgradeSectionHeaders]
    builds on the fresh element. *)
Definition copiedAttributes (a : list (string * string)) : list (string * string) :=
  fold_left (fun acc '(name, value) => set_attr (Js.toLowerCase name) value acc) a [].

(** The docblock whose descendants have been through the pass. *)
Definition downgradedChildren (docblock : node) : node :=
  match docblock with
  | Text _ => docblock
  | Element t a cs => Element t a (downgraded <$> cs)
  end.

(** The fragments each variant prepends to the docblock, from the top
    of the docblock down. *)
Definition injectedByPart000
    (manifestDirBlobURL license cargoAddCommand : string)
    (dependencyUL : list (string * string))
    (codeSizeUnmodified : option Part000.codeSize)
    (verifiedWith : list (string * string)) : list node :=
  [Part000.createFirstSection manifestDirBlobURL license;
   createCargoAddCommandSection cargoAddCommand;
   createHeader "Dependencies" "dependencies";
   toNode (Part000.createDependenciesSection dependencyUL)]
  ++ match codeSizeUnmodified with
     | Some size => [createHeader "Code size" "code-size"; Part000.createCodeSizeSection size]
     | None => []
     end
  ++ [createHeader "Verified with" "verified-with";
      createVerifiedWithSection verifiedWith;
      createHeader "Description" "description"].

Definition injectedByIndexTs
    (verifiedWithSection : list (string * string) -> node)
    (manifestRelPath manifestHref license cargoAddCommand : string)
    (codeSizeUnmodified : option string)
    (verifiedWith : list (string * string)) : list node :=
  [IndexTs.createFirstSection manifestRelPath manifestHref license;
   IndexTs.createDependencySection cargoAddCommand]
  ++ match codeSizeUnmodified with
     | Some size => [createHeader "Code size" "code-size"; IndexTs.createCodeSizeSection size]
     | None => []
     end
  ++ [createHeader "Verified with" "verified-with";
      verifiedWithSection verifiedWith;
      createHeader "Description" "description"].

(** The docblock after the pass and with the fragments on top. *)
Definition inject (fragments : list node) (docblock : node) : node :=
  prependTo (Nd <$> fragments) (downgradedChildren docblock).

(** Inside the node [x], whatever carries the marker class of section
    headers is a level-1 heading. *)
Definition onlyH1 (x : node) : Prop :=
  forall p e,
    p ∈ matching (matchesClass "section-header") x -> deref p x = Some e -> tagName e = "H1".

(** The number whose decimal digits a string holds. *)
Definition decimalValue (s : string) : option N :=
  N.of_uint <$> NilZero.uint_of_string s.

(** A fragment of the routine after one more downgrade pass: its
    headings, which are H1, have become H2. *)
Definition demoted (x : node) : node :=
  if matchesClass "section-header" x
  then Element "H2" (attributes x) (childNodes x)
  else x.

(** [node.textContent]: the text of the text nodes of a tree, in tree
    order. *)
Fixpoint textContent (n : node) : string :=
  match n with
  | Text s => s
  | Element _ _ cs => fold_right (fun c rest => textContent c +:+ rest) "" cs
  end.

(** Every element of the tree [n] that carries the marker class of
    section headers satisfies [P]. *)
Fixpoint allMarked (P : node -> bool) (n : node) : bool :=
  match n with
  | Text _ => true
  | Element _ _ cs =>
      (if matchesClass "section-header" n then P n else true)
      && forallb (allMarked P) cs
  end.

(** A tag name the [switch] of [downgradeSectionHeaders] has no case
    for. *)
Definition deepest (e : node) : bool :=
  negb (existsb (String.eqb (tagName e)) ["H1"; "H2"; "H3"; "H4"; "H5"]).

(** The tree [n] is made of elements of the given tag names, with
    attributes of the given names, and of text. *)
Fixpoint madeOf (tags attrs : list string) (n : node) : bool :=
  match n with
  | Text _ => true
  | Element t a cs =>
      existsb (String.eqb t) tags
      && forallb (fun name => existsb (String.eqb name) attrs) (fst <$> a)
      && forallb (madeOf tags attrs) cs
  end.


(** ** Facts about the document object model *)

Section DomFacts.

Implicit Types (n c e : node) (cs : list node) (r p q : ref) (f g : node -> node).

(** Induction that reaches the children of an element. *)
Lemma node_ind' (P : node -> Prop)
    (HT : forall s, P (Text s))
    (HE : forall t a cs, Forall P cs -> P (Element t a cs)) :
  forall n, P n.
Proof.
  fix IH 1. intros [s | t a cs].
  - apply HT.
  - apply HE. induction cs as [| c cs IHcs]; constructor; [apply IH | exact IHcs].
Qed.

Lemma deref_app r q n : deref (r ++ q) n = deref r n ≫= deref q.
Proof.
  revert n. induction r as [| i r IH]; intros n; simpl; [done |].
  destruct (childNodes n !! i); simpl; [apply IH | done].
Qed.

Lemma update_app f r q n : update f (r ++ q) n = update (update f q) r n.
Proof.
  revert n. induction r as [| i r IH]; intros n; simpl; [done |].
  destruct n as [s | t a cs]; [done |]. f_equal.
  apply list_alter_ext; auto.
Qed.

Lemma update_ext f g r n : (forall x, f x = g x) -> update f r n = update g r n.
Proof.
  intros Hfg. revert n. induction r as [| i r IH]; intros n; simpl; [done |].
  destruct n as [s | t a cs]; [done |]. f_equal.
  apply list_alter_ext; auto.
Qed.

Lemma update_update f g r n : update f r (update g r n) = update (f ∘ g) r n.
Proof.
  revert n. induction r as [| i r IH]; intros n; simpl; [done |].
  destruct n as [s | t a cs]; [done |]. f_equal.
  rewrite list_alter_alter_eq. apply list_alter_ext; [intros; apply IH | done].
Qed.

Lemma deref_update f r n : deref r (update f r n) = f <$> deref r n.
Proof.
  revert n. induction r as [| i r IH]; intros n; simpl; [done |].
  destruct n as [s | t a cs]; simpl; [done |].
  rewrite list_lookup_alter_eq. destruct (cs !! i); simpl; [apply IH | done].
Qed.

Lemma update_None f r n : deref r n = None -> update f r n = n.
Proof.
  revert n. induction r as [| i r IH]; intros n; simpl; [done |].
  destruct n as [s | t a cs]; simpl; [done |].
  intros H. f_equal. apply list_eq; intros j.
  destruct (decide (i = j)) as [<- |]; [| by rewrite list_lookup_alter_ne].
  rewrite list_lookup_alter_eq. destruct (cs !! i) as [c |]; simpl; [| done].
  f_equal. by apply IH.
Qed.

Lemma update_Some f r n e : deref r n = Some e -> update f r n = update (fun _ => f e) r n.
Proof.
  revert n. induction r as [| i r IH]; intros n; simpl; [congruence |].
  destruct n as [s | t a cs]; simpl; [done |].
  intros H. f_equal. apply list_alter_ext; [| done]. intros c Hc. rewrite Hc in H. auto.
Qed.

(** One step of the pass rewrites the node at the reference, whatever
    the document. *)
Lemma downgradeStep_update doc p : downgradeStep doc p = update replacementFor p doc.
Proof.
  unfold downgradeStep, replaceWith. destruct (deref p doc) as [e |] eqn:H.
  - symmetry. by apply update_Some.
  - symmetry. by apply update_None.
Qed.

Lemma matching_Element sel t a cs :
  matching sel (Element t a cs) =
  (if sel (Element t a cs) then [[]] else []) ++ matchingFrom sel 0 cs.
Proof.
  simpl. f_equal. generalize 0. induction cs as [| c cs IH]; intros i; simpl; [done |].
  by rewrite IH.
Qed.

Lemma fold_update_cons f i (L : list ref) t a cs :
  fold_left (fun d p => update f p d) (cons i <$> L) (Element t a cs) =
  Element t a (alter (fun c => fold_left (fun d p => update f p d) L c) i cs).
Proof.
  revert cs. induction L as [| q L IH]; intros cs; simpl.
  - by rewrite list_alter_id.
  - rewrite IH, list_alter_alter_eq. done.
Qed.

Lemma set_attr_fresh name value (a : list (string * string)) :
  name ∉ a.*1 -> set_attr name value a = a ++ [(name, value)].
Proof.
  induction a as [| [n v] a IH]; simpl; [done |].
  intros Hn. apply not_elem_of_cons in Hn as [Hne Hn].
  destruct (String.eqb n name) eqn:E.
  - apply String.eqb_eq in E. congruence.
  - by rewrite IH.
Qed.

Lemma fold_setAttribute_Element (l : list (string * string)) t a cs :
  fold_left (fun e '(name, value) => setAttribute name value e) l (Element t a cs) =
  Element t (fold_left (fun acc '(name, value) => set_attr (Js.toLowerCase name) value acc) l a) cs.
Proof.
  revert a. induction l as [| [n v] l IH]; intros a; simpl; [done |]. apply IH.
Qed.

(** The element the pass builds: the mapped tag, the attributes set
    one by one, the children taken over. *)
Lemma replacementFor_Element t a cs :
  replacementFor (Element t a cs) =
  Element (Js.toUpperCase (downgradedTagName t)) (copiedAttributes a) cs.
Proof.
  unfold replacementFor, createElement. simpl tagName. simpl attributes. simpl childNodes.
  rewrite fold_setAttribute_Element. simpl.
  f_equal. induction cs as [| c cs IH]; simpl; [done |]. by f_equal.
Qed.

Lemma copiedAttributes_from (a acc : list (string * string)) :
  forallb (fun name => String.eqb (Js.toLowerCase name) name) a.*1 = true ->
  NoDup (acc.*1 ++ a.*1) ->
  fold_left (fun acc '(name, value) => set_attr (Js.toLowerCase name) value acc) a acc
  = acc ++ a.
Proof.
  revert acc. induction a as [| [n v] a IH]; intros acc Hlow Hnd; simpl.
  - by rewrite app_nil_r.
  - simpl in Hlow. apply andb_true_iff in Hlow as [Hn Hlow].
    apply String.eqb_eq in Hn. rewrite Hn.
    simpl in Hnd. apply NoDup_app in Hnd as (Hacc & Hdisj & Ha).
    apply NoDup_cons in Ha as [Hna Ha].
    rewrite set_attr_fresh.
    + rewrite IH; [by rewrite <- app_assoc | done |].
      rewrite fmap_app. simpl. rewrite <- app_assoc. simpl.
      apply NoDup_app. split_and!; [done | | by apply NoDup_cons].
      intros x Hx. apply Hdisj. done.
    + intros Hin. apply (Hdisj n Hin). by left.
Qed.

Lemma copiedAttributes_html e :
  htmlElement e = true -> copiedAttributes (attributes e) = attributes e.
Proof.
  unfold htmlElement. intros H.
  apply andb_true_iff in H as [H Hnd]. apply andb_true_iff in H as [_ Hlow].
  apply bool_decide_eq_true in Hnd.
  unfold copiedAttributes. by rewrite copiedAttributes_from.
Qed.

Lemma fold_downgrade_children (pre cs : list node) t a :
  Forall (fun c => fold_left (fun d p => update replacementFor p d)
                     (matching (matchesClass "section-header") c) c = downgraded c) cs ->
  fold_left (fun d p => update replacementFor p d)
    (matchingFrom (matchesClass "section-header") (length pre) cs) (Element t a (pre ++ cs))
  = Element t a (pre ++ (downgraded <$> cs)).
Proof.
  intros H. revert pre. induction H as [| c cs Hc _ IH]; intros pre; simpl; [done |].
  rewrite fold_left_app, fold_update_cons.
  rewrite alter_app_r_alt by lia. rewrite Nat.sub_diag. simpl. rewrite Hc.
  replace (S (length pre)) with (length (pre ++ [downgraded c])) by (rewrite length_app; simpl; lia).
  rewrite (cons_middle (downgraded c) pre cs), app_assoc.
  rewrite IH. by rewrite <- app_assoc.
Qed.

(** The pass, which walks the static list of matches, computes the
    structural replacement. *)
Lemma fold_downgrade n :
  fold_left (fun d p => update replacementFor p d)
    (matching (matchesClass "section-header") n) n = downgraded n.
Proof.
  induction n as [s | t a cs IH] using node_ind'; [done |].
  rewrite matching_Element. rewrite fold_left_app.
  change (downgraded (Element t a cs)) with
    (if matchesClass "section-header" (Element t a cs)
     then replacementFor (Element t a (downgraded <$> cs))
     else Element t a (downgraded <$> cs)).
  destruct (matchesClass "section-header" (Element t a cs)); simpl fold_left at 2.
  - rewrite !replacementFor_Element.
    apply (fold_downgrade_children [] cs _ _ IH).
  - apply (fold_downgrade_children [] cs _ _ IH).
Qed.

Lemma update_id r n : update (fun x => x) r n = n.
Proof.
  revert n. induction r as [| i r IH]; intros n; simpl; [done |].
  destruct n as [s | t a cs]; [done |]. f_equal. by apply list_alter_id.
Qed.

Lemma fold_update_app f r (L : list ref) n :
  fold_left (fun d p => update f p d) (app r <$> L) n =
  update (fun e => fold_left (fun d p => update f p d) L e) r n.
Proof.
  revert n. induction L as [| q L IH]; intros n; simpl.
  - by rewrite update_id.
  - rewrite IH, update_app, update_update. done.
Qed.

Lemma fold_downgradeStep (L : list ref) n :
  fold_left downgradeStep L n = fold_left (fun d p => update replacementFor p d) L n.
Proof.
  revert n. induction L as [| q L IH]; intros n; simpl; [done |].
  by rewrite IH, downgradeStep_update.
Qed.

(** The pass on the docblock at [r] leaves the document in which the
    children of the docblock are the downgraded ones. *)
Lemma downgradeSectionHeaders_update r doc :
  downgradeSectionHeaders r doc = update downgradedChildren r doc.
Proof.
  unfold downgradeSectionHeaders, querySelectorAll.
  destruct (deref r doc) as [e |] eqn:He; simpl.
  - rewrite fold_downgradeStep, fold_update_app.
    rewrite (update_Some _ r doc e He), (update_Some downgradedChildren r doc e He).
    apply update_ext; intros _.
    destruct e as [s | t a cs]; [done |]. simpl childNodes.
    apply (fold_downgrade_children [] cs t a).
    apply Forall_forall; intros c _. apply fold_downgrade.
  - by rewrite update_None.
Qed.

Lemma elem_of_matchingFrom sel i cs p :
  p ∈ matchingFrom sel i cs <->
  exists j c q, p = (i + j) :: q /\ cs !! j = Some c /\ q ∈ matching sel c.
Proof.
  revert i. induction cs as [| c cs IH]; intros i; simpl.
  - split; [by intros ?%elem_of_nil | by intros (j & c & q & _ & ? & _)].
  - rewrite elem_of_app, list_elem_of_fmap, IH. split.
    + intros [(q & -> & Hq) | (j & c' & q & -> & Hj & Hq)].
      * exists 0, c, q. by rewrite Nat.add_0_r.
      * exists (S j), c', q. split_and!; [f_equal; lia | done | done].
    + intros (j & c' & q & -> & Hj & Hq). destruct j as [| j]; simpl in Hj.
      * left. exists q. simplify_eq. by rewrite Nat.add_0_r.
      * right. exists j, c', q. split_and!; [f_equal; lia | done | done].
Qed.

(** The list of matches holds the references to the elements that
    satisfy the selector, and nothing else. *)
Lemma elem_of_matching sel n p :
  p ∈ matching sel n <->
  exists e, deref p n = Some e /\ isElement e = true /\ sel e = true.
Proof.
  revert p. induction n as [s | t a cs IH] using node_ind'; intros p.
  - simpl. split; [by intros ?%elem_of_nil |].
    intros (e & He & Hel & _). destruct p; simpl in He; [by simplify_eq | done].
  - rewrite matching_Element, elem_of_app, elem_of_matchingFrom. split.
    + intros [Hp | (j & c & q & -> & Hj & Hq)].
      * destruct (sel (Element t a cs)) eqn:Hs; [| by apply elem_of_nil in Hp].
        apply list_elem_of_singleton in Hp as ->. by exists (Element t a cs).
      * rewrite Forall_lookup in IH. apply (IH _ _ Hj) in Hq as (e & He & Hel & Hs).
        exists e. simpl. by rewrite Hj.
    + intros (e & He & Hel & Hs). destruct p as [| j q]; simpl in He.
      * simplify_eq. left. rewrite Hs. by apply list_elem_of_singleton.
      * right. destruct (cs !! j) as [c |] eqn:Hj; [| done].
        exists j, c, q. split_and!; [done | done |].
        rewrite Forall_lookup in IH. apply (IH _ _ Hj). by exists e.
Qed.

Lemma treeBefore_cons i q p : treeBefore q p -> treeBefore (i :: q) (i :: p).
Proof. simpl. auto. Qed.


Lemma treeBefore_not_prefix q p : treeBefore q p -> ~ p `prefix_of` q.
Proof.
  revert p. induction q as [| i q IH]; intros [| j p]; simpl; try done.
  - intros _ H. by apply prefix_nil_not in H.
  - intros [Hlt | [-> Hb]] Hpre.
    + apply prefix_cons_inv_1 in Hpre. lia.
    + apply prefix_cons_inv_2 in Hpre. by apply (IH p).
Qed.

Lemma matchingFrom_sorted sel i cs :
  Forall (fun c => StronglySorted treeBefore (matching sel c)) cs ->
  StronglySorted treeBefore (matchingFrom sel i cs).
Proof.
  intros H. revert i. induction H as [| c cs Hc _ IH]; intros i; simpl.
  - constructor.
  - apply StronglySorted_app_2.
    + intros x1 x2 (q & -> & _)%list_elem_of_fmap (j & c' & q' & -> & _)%elem_of_matchingFrom.
      simpl. left. lia.
    + apply (StronglySorted_fmap (cons i) treeBefore treeBefore); [| exact Hc].
      intros x y. apply treeBefore_cons.
    + apply IH.
Qed.

(** [querySelectorAll] lists the matches in tree order. *)
Lemma matching_sorted sel n : StronglySorted treeBefore (matching sel n).
Proof.
  induction n as [s | t a cs IH] using node_ind'; [constructor |].
  rewrite matching_Element. apply StronglySorted_app_2.
  - intros x1 x2 H1 (j & c' & q' & -> & _)%elem_of_matchingFrom.
    destruct (sel _); [| by apply elem_of_nil in H1].
    by apply list_elem_of_singleton in H1 as ->.
  - destruct (sel _); repeat constructor.
  - by apply matchingFrom_sorted.
Qed.





Lemma childNodes_downgraded n : childNodes (downgraded n) = downgraded <$> childNodes n.
Proof.
  destruct n as [s | t a cs]; [done |]. simpl.
  destruct (matchesClass _ _); [| done]. by rewrite replacementFor_Element.
Qed.

Lemma deref_downgraded p n : deref p (downgraded n) = downgraded <$> deref p n.
Proof.
  revert n. induction p as [| i p IH]; intros n; simpl; [done |].
  rewrite childNodes_downgraded, list_lookup_fmap.
  destruct (childNodes n !! i); simpl; [apply IH | done].
Qed.

Lemma deref_downgradedChildren p d :
  p <> [] -> deref p (downgradedChildren d) = downgraded <$> deref p d.
Proof.
  destruct p as [| i p]; [done |]. intros _.
  destruct d as [s | t a cs]; [done |]. simpl.
  rewrite list_lookup_fmap. destruct (cs !! i); simpl; [apply deref_downgraded | done].
Qed.

Lemma downgraded_unmarked n :
  matching (matchesClass "section-header") n = [] -> downgraded n = n.
Proof.
  induction n as [s | t a cs IH] using node_ind'; [done |].
  rewrite matching_Element. intros [H1 H2]%app_eq_nil.
  change (downgraded (Element t a cs)) with
    (if matchesClass "section-header" (Element t a cs)
     then replacementFor (Element t a (downgraded <$> cs))
     else Element t a (downgraded <$> cs)).
  destruct (matchesClass _ _); [done |]. f_equal.
  revert H2. generalize 0. induction IH as [| c cs Hc _ IHcs]; intros i; simpl; [done |].
  intros [H3 H4]%app_eq_nil. apply fmap_nil_inv in H3.
  f_equal; [by apply Hc | by apply (IHcs (S i))].
Qed.

Lemma toUpperCase_downgradedTagName t :
  Js.toUpperCase t = t -> Js.toUpperCase (downgradedTagName t) = downgradedTagName t.
Proof.
  intros H. unfold downgradedTagName.
  repeat (match goal with |- context [String.eqb ?x ?y] => destruct (String.eqb x y) end;
          [reflexivity |]).
  exact H.
Qed.

Lemma replacementFor_html t a cs :
  htmlElement (Element t a cs) = true ->
  replacementFor (Element t a cs) = Element (downgradedTagName t) a cs.
Proof.
  intros H. rewrite replacementFor_Element.
  pose proof (copiedAttributes_html (Element t a cs) H) as Ha. simpl in Ha.
  rewrite Ha. f_equal.
  apply toUpperCase_downgradedTagName.
  unfold htmlElement in H. apply andb_true_iff in H as [H _].
  apply andb_true_iff in H as [H _]. by apply String.eqb_eq in H.
Qed.

End DomFacts.

(** ** The heading-downgrade pass *)




(** ** The generated fragments *)

Lemma fold_append_items {A} (f : A -> node) (l : list A) t a cs :
  fold_left (fun ul x => append [Nd (f x)] ul) l (Element t a cs)
  = Element t a (cs ++ (f <$> l)).
Proof.
  revert cs. induction l as [| x l IH]; intros cs; simpl.
  - by rewrite app_nil_r.
  - rewrite IH, <- app_assoc. done.
Qed.

Lemma createVerifiedWithSection_shape (verifiedWith : list (string * string)) :
  createVerifiedWithSection verifiedWith =
  Element "DIV" []
    (match verifiedWith with
     | [] =>
         [Element "STRONG" [] [createWarningMark; Text " This library is not verified."]]
     | [_] =>
         [createHeavyCheckMark; Text " This library verified with 1 solution."]
     | _ :: _ :: _ =>
         [createHeavyCheckMark;
          Text (" This library verified with " +:+ Js.string_of_nat (length verifiedWith)
                +:+ " solutions.")]
     end ++ [Element "UL" [] (verifiedWithItem <$> verifiedWith)]).
Proof.
  unfold createVerifiedWithSection, createElement.
  rewrite fold_append_items. simpl app at 1.
  destruct verifiedWith as [| p1 [| p2 rest]]; reflexivity.
Qed.

Lemma First_createVerifiedWithSection_shape (verifiedWith : list (string * string)) :
  IndexTs.First.createVerifiedWithSection verifiedWith =
  Element "UL" [] (verifiedWithItem <$> verifiedWith).
Proof.
  unfold IndexTs.First.createVerifiedWithSection, createElement.
  by rewrite fold_append_items.
Qed.

Lemma createDependenciesSection_cons (pair : string * string) (items : list (string * string)) :
  Part000.createDependenciesSection (pair :: items) =
  Nd (Element "UL" [] (Part000.dependencyItem <$> pair :: items)).
Proof.
  unfold Part000.createDependenciesSection. simpl Nat.eqb. cbv iota.
  unfold createElement. by rewrite fold_append_items.
Qed.

(** C2: the verification-status block is a DIV that holds, for an empty
    list, the warning mark and " This library is not verified." in
    bold; for one pair, the check mark and " This library verified with
    1 solution."; for two pairs or more, the check mark and
    " This library verified with N solutions." with N the decimal
    length of the list; and then, in every case, a UL with one LI per
    pair, in the order of the list: a link to the problem URL showing
    that URL, " (", a link to the solution showing "code", ")". *)
Theorem createVerifiedWithSection_status :
  (forall verifiedWith : list (string * string),
     createVerifiedWithSection verifiedWith =
     Element "DIV" []
       (match verifiedWith with
        | [] =>
            [Element "STRONG" [] [createWarningMark; Text " This library is not verified."]]
        | [_] =>
            [createHeavyCheckMark; Text " This library verified with 1 solution."]
        | _ :: _ :: _ =>
            [createHeavyCheckMark;
             Text (" This library verified with " +:+ Js.string_of_nat (length verifiedWith)
                   +:+ " solutions.")]
        end ++
        [Element "UL" []
           ((fun '(problemURL, blobURL) =>
               Element "LI" [] [Element "A" [("href", problemURL)] [Text problemURL];
                                Text " (";
                                Element "A" [("href", blobURL)] [Text "code"];
                                Text ")"]) <$> verifiedWith)])) /\
  createWarningMark =
    Element "IMG" [("src", "https://github.githubassets.com/images/icons/emoji/unicode/26a0.png");
                   ("alt", "⚠"); ("title", "⚠"); ("width", "20"); ("height", "20")] [] /\
  createHeavyCheckMark =
    Element "IMG" [("src", "https://github.githubassets.com/images/icons/emoji/unicode/2714.png");
                   ("alt", "✔"); ("title", "✔"); ("width", "20"); ("height", "20")] [] /\
  Js.string_of_nat 2 = "2" /\ Js.string_of_nat 10 = "10" /\ Js.string_of_nat 137 = "137".
Proof.
  split_and!; try reflexivity.
  intros verifiedWith. unfold createVerifiedWithSection, createElement.
  rewrite fold_append_items. simpl app at 1.
  assert (verifiedWithItem <$> verifiedWith =
          (fun '(problemURL, blobURL) =>
             Element "LI" [] [Element "A" [("href", problemURL)] [Text problemURL];
                              Text " (";
                              Element "A" [("href", blobURL)] [Text "code"];
                              Text ")"]) <$> verifiedWith) as ->.
  { apply list_fmap_ext. by intros i [problemURL blobURL] _. }
  destruct verifiedWith as [| p1 [| p2 rest]]; reflexivity.
Qed.

(** C4: a number of bytes [b] is shown as the decimal digits of
    [b / 1024], ".", the decimal digit [10 * (b mod 1024) / 1024] and
    " KiB": "1.5 KiB" for 1536, "1.0 KiB" for 1024, "0.0 KiB" for 0 and
    "0.9 KiB" for 1000; a string is shown inside a CODE element. *)
Theorem createCodeSizeSection_kibibytes :
  (forall b : N,
     (b <= Js.MAX_SAFE_INTEGER)%N ->
     childNodes (Part000.createCodeSizeSection (Part000.SizeNumber b)) !! 0 =
     Some (Element "LI" []
             [Text "unmodified: ";
              Text (Js.string_of_N (b / 1024) +:+ "." +:+
                    Js.string_of_N (10 * (b mod 1024) / 1024) +:+ " KiB");
              Text " + (not yet implemented) KiB"])) /\
  childNodes (Part000.createCodeSizeSection (Part000.SizeNumber 1536)) !! 0 =
    Some (Element "LI" []
            [Text "unmodified: "; Text "1.5 KiB"; Text " + (not yet implemented) KiB"]) /\
  childNodes (Part000.createCodeSizeSection (Part000.SizeNumber 1024)) !! 0 =
    Some (Element "LI" []
            [Text "unmodified: "; Text "1.0 KiB"; Text " + (not yet implemented) KiB"]) /\
  childNodes (Part000.createCodeSizeSection (Part000.SizeNumber 0)) !! 0 =
    Some (Element "LI" []
            [Text "unmodified: "; Text "0.0 KiB"; Text " + (not yet implemented) KiB"]) /\
  childNodes (Part000.createCodeSizeSection (Part000.SizeNumber 1000)) !! 0 =
    Some (Element "LI" []
            [Text "unmodified: "; Text "0.9 KiB"; Text " + (not yet implemented) KiB"]) /\
  (forall text : string,
     childNodes (Part000.createCodeSizeSection (Part000.SizeString text)) !! 0 =
     Some (Element "LI" []
             [Text "unmodified: "; Element "CODE" [] [Text text];
              Text " + (not yet implemented) KiB"])).
Proof.
  split_and!; reflexivity.
Qed.

Lemma createCodeSizeSection_kibibytes_witness :
  (1536 <= Js.MAX_SAFE_INTEGER)%N /\
  childNodes (Part000.createCodeSizeSection (Part000.SizeNumber 1536)) !! 0 =
  Some (Element "LI" []
          [Text "unmodified: "; Text "1.5 KiB"; Text " + (not yet implemented) KiB"]).
Proof.
  assert ((1536 <= Js.MAX_SAFE_INTEGER)%N) as H by (vm_compute; discriminate).
  split; [exact H |].
  exact (proj1 createCodeSizeSection_kibibytes 1536%N H).
Defined.

(** C6, as the code has it: in [part_000] the code-size block is a UL of
    three items, the "unmodified" one and then the two fixed place
    holders, for the size after resolution of [#[cfg]] and formatting
    and for the minified size; in the two files of [index.ts] the block
    holds the "unmodified" item alone. *)
Theorem createCodeSizeSection_items :
  (forall codeSizeUnmodified : Part000.codeSize,
     exists rest : list node,
       Part000.createCodeSizeSection codeSizeUnmodified =
       Element "UL" []
         [Element "LI" [] (Text "unmodified: " :: rest);
          Element "LI" []
            [Element "CODE" [] [Text "#[cfg]"];
             Text " resolved + (doc-)comment removed + Rustfmt: (not yet implemented)"];
          Element "LI" []
            [Element "CODE" [] [Text "#[cfg]"];
             Text " resolved + doc-comment removed + minified: (not yet implemented)"]]) /\
  (forall codeSizeUnmodified : string,
     IndexTs.createCodeSizeSection codeSizeUnmodified =
     Element "UL" []
       [Element "LI" []
          [Text ("unmodified: " +:+ codeSizeUnmodified +:+ " KiB + (not yet implemented) KiB")]]).
Proof.
  split.
  - intros [b | text]; eexists; reflexivity.
  - intros s. reflexivity.
Qed.

(** C6 as claimed fails on [index.ts]: for the size "1.5" the block has
    one item, and no item follows the "unmodified" one. *)
Lemma createCodeSizeSection_ts_no_placeholder :
  childNodes (IndexTs.createCodeSizeSection "1.5") =
    [Element "LI" [] [Text "unmodified: 1.5 KiB + (not yet implemented) KiB"]] /\
  ~ (exists (li1 li2 : node) (rest : list node),
       childNodes (IndexTs.createCodeSizeSection "1.5") = li1 :: li2 :: rest).
Proof.
  split; [reflexivity |].
  intros (li1 & li2 & rest & H). discriminate H.
Qed.

(** C9: [createDependenciesSection] gives the string "No dependencies."
    for the empty list and, for a list that is not empty, a UL with one
    LI per pair, in the order of the list, each holding a link whose
    [href] is the second component and whose text is the first; the
    install command is shown as a PRE with a CODE of class
    [language-console] that holds "$ ", the command and a line feed. *)
Theorem dependencies_rendering :
  Part000.createDependenciesSection [] = Str "No dependencies." /\
  toNode (Str "No dependencies.") = Text "No dependencies." /\
  (forall (pair : string * string) (items : list (string * string)),
     Part000.createDependenciesSection (pair :: items) =
     Nd (Element "UL" []
           ((fun '(text, href) => Element "LI" [] [Element "A" [("href", href)] [Text text]])
              <$> pair :: items))) /\
  (forall cargoAddCommand : string,
     createCargoAddCommandSection cargoAddCommand =
     Element "PRE" []
       [Element "CODE" [("class", "language-console")]
          [Text ("$ " +:+ cargoAddCommand +:+ String "010"%char "")]]) /\
  (forall cargoAddCommand : string,
     IndexTs.createDependencySection cargoAddCommand =
     Element "PRE" []
       [Element "CODE" [("class", "language-console")]
          [Text ("$ " +:+ cargoAddCommand +:+ String "010"%char "")]]).
Proof.
  split_and!; try reflexivity.
  intros pair items. unfold Part000.createDependenciesSection. simpl Nat.eqb. cbv iota.
  unfold createElement. rewrite fold_append_items. simpl app.
  reflexivity.
Qed.

(** ** Finding or creating the docblock *)

Section Docblock.

Implicit Types (doc n e : node) (r p q : ref).

Lemma insertAt_lookup_lt {A} (l : list A) i j x :
  j < i -> i <= length l -> insertAt i x l !! j = l !! j.
Proof.
  intros Hj Hi. unfold insertAt.
  rewrite lookup_app_l by (rewrite length_take_le; lia).
  by apply lookup_take_lt.
Qed.

Lemma insertAt_lookup_eq {A} (l : list A) i x :
  i <= length l -> insertAt i x l !! i = Some x.
Proof.
  intros Hi. unfold insertAt. apply list_lookup_middle.
  rewrite length_take_le; lia.
Qed.

Lemma insertAt_lookup_gt {A} (l : list A) i j x :
  i <= length l -> i <= j -> insertAt i x l !! (S j) = l !! j.
Proof.
  intros Hi Hj. unfold insertAt.
  rewrite lookup_app_r by (rewrite length_take_le; lia).
  rewrite length_take_le by lia.
  replace (S j - i) with (S (j - i)) by lia. simpl.
  rewrite lookup_drop. f_equal. lia.
Qed.

(** After [insertAdjacentElement("afterend", x)] on an element of the
    document, the element is where it was, [x] is its next sibling
    and the former next sibling comes after [x]. *)
Lemma insertAfter_deref target x doc e :
  target <> [] ->
  deref target doc = Some e ->
  exists doc',
    insertAfter target x doc = Some doc' /\
    deref target doc' = Some e /\
    deref (sibling 1 target) doc' = Some x /\
    deref (sibling 2 target) doc' = deref (sibling 1 target) doc.
Proof.
  revert doc. induction target as [| i target IH]; intros doc Hne He; [done |].
  destruct doc as [s | t a cs]; [done |].
  simpl in He. destruct (cs !! i) as [c |] eqn:Hi; [| done].
  pose proof (lookup_lt_Some _ _ _ Hi) as Hlen.
  destruct target as [| j target].
  - simpl in He. simplify_eq. eexists. split; [reflexivity |]. simpl.
    rewrite insertAt_lookup_lt, Hi by lia.
    rewrite Nat.add_1_r, insertAt_lookup_eq by lia.
    replace (i + 2) with (S (S i)) by lia.
    rewrite insertAt_lookup_gt by lia. done.
  - destruct (IH c) as (c' & Hins & H0 & H1 & H2); [done | done |].
    exists (Element t a (<[i := c']> cs)). split.
    + change (insertAfter (i :: j :: target) x (Element t a cs))
        with (match cs !! i with
              | None => None
              | Some c =>
                  match insertAfter (j :: target) x c with
                  | None => None
                  | Some c' => Some (Element t a (<[i := c']> cs))
                  end
              end).
      by rewrite Hi, Hins.
    + change (sibling 1 (i :: j :: target)) with (i :: sibling 1 (j :: target)).
      change (sibling 2 (i :: j :: target)) with (i :: sibling 2 (j :: target)).
      simpl deref. rewrite list_lookup_insert_eq, Hi by done. done.
Qed.

Lemma querySelector_Some cls doc r :
  querySelector cls doc = Some r ->
  exists t a cs,
    deref r doc = Some (Element t a cs) /\ matchesClass cls (Element t a cs) = true.
Proof.
  unfold querySelector. intros H. apply head_Some_elem_of in H.
  apply elem_of_matching in H as (e & He & Hel & Hs).
  destruct e as [s | t a cs]; [done |]. by exists t, a, cs.
Qed.

(** What [findOrCreateDocblock] returns when it returns a docblock:
    the one it found in the document, left as it is, or a fresh empty
    DIV of class [docblock] that it has put after the anchor and the
    toggle. *)
Lemma findOrCreateDocblock_Some doc doc1 docblock :
  findOrCreateDocblock doc = (doc1, Return (Some docblock)) ->
  (querySelector "docblock" doc = Some docblock /\ doc1 = doc) \/
  (querySelector "docblock" doc = None /\
   exists fqn,
     querySelector "fqn" doc = Some fqn /\ fqn <> [] /\
     docblock = sibling 2 fqn /\
     deref docblock doc1 = Some (Element "DIV" [("class", "docblock")] []) /\
     deref (sibling 1 fqn) doc1 = Some createToggleWrapper /\
     deref fqn doc1 = deref fqn doc).
Proof.
  unfold findOrCreateDocblock.
  destruct (querySelector "docblock" doc) as [r |] eqn:Hd.
  { intros H. simplify_eq. by left. }
  destruct (querySelector "fqn" doc) as [fqn |] eqn:Hf; [| done].
  destruct (querySelector_Some _ _ _ Hf) as (t & a & cs & He & _).
  destruct fqn as [| i fqn]; [done |].
  destruct (insertAfter_deref (i :: fqn)
              (setAttribute "class" "docblock" (createElement "div")) doc _ ltac:(done) He)
    as (d1 & -> & H0 & H1 & _).
  destruct (insertAfter_deref (i :: fqn) createToggleWrapper d1 _ ltac:(done) H0)
    as (d2 & -> & H0' & H1' & H2').
  intros [= <- <-]. right. split; [done |].
  exists (i :: fqn). split_and!; try done.
  - change (deref (sibling 2 (i :: fqn)) d2 = Some (Element "DIV" [("class", "docblock")] [])).
    by rewrite H2', H1.
  - by rewrite H0'.
Qed.

Lemma findOrCreateDocblock_element doc doc1 docblock :
  findOrCreateDocblock doc = (doc1, Return (Some docblock)) ->
  exists t a cs, deref docblock doc1 = Some (Element t a cs).
Proof.
  intros [[H ->] | (_ & fqn & _ & _ & _ & H & _)]%findOrCreateDocblock_Some.
  - apply querySelector_Some in H as (t & a & cs & H & _). eauto.
  - eauto.
Qed.

Lemma findOrCreateDocblock_None doc :
  querySelector "docblock" doc = None ->
  querySelector "fqn" doc = None ->
  findOrCreateDocblock doc = (doc, Return None).
Proof. unfold findOrCreateDocblock. by intros -> ->. Qed.

Lemma runListeners_app type ls ls' doc :
  runListeners type (ls ++ ls') doc = runListeners type ls' (runListeners type ls doc).
Proof.
  revert doc. induction ls as [| [ty cb] ls IH]; intros doc; simpl; [done |].
  destruct (String.eqb ty type); apply IH.
Qed.

(** A listener registered for [DOMContentLoaded] runs, when the page
    has loaded, on the document the earlier listeners leave. *)
Lemma pageLoaded_addEventListener (callback : listener) w :
  document (pageLoaded (addEventListener "DOMContentLoaded" callback w))
  = fst (callback (document (pageLoaded w))).
Proof.
  unfold pageLoaded, dispatchEvent, addEventListener. simpl.
  by rewrite runListeners_app.
Qed.

End Docblock.

(** ** What the three entry routines leave in the document *)

Section Entry.

Implicit Types (doc : node) (docblock : ref) (w : window).

Lemma inject_Element fragments t a old :
  inject fragments (Element t a old) = Element t a (fragments ++ (downgraded <$> old)).
Proof.
  unfold inject. simpl. do 2 f_equal.
  induction fragments as [| x l IH]; simpl; [done |]. by f_equal.
Qed.

Lemma Part000_onDOMContentLoaded url lic cmd deps size vw doc doc1 docblock :
  findOrCreateDocblock doc = (doc1, Return (Some docblock)) ->
  Part000.onDOMContentLoaded url lic cmd deps size vw doc =
  (update (inject (injectedByPart000 url lic cmd deps size vw)) docblock doc1, Return tt).
Proof.
  intros H. unfold Part000.onDOMContentLoaded. rewrite H. f_equal.
  rewrite downgradeSectionHeaders_update. unfold prepend.
  destruct size; rewrite !update_update; apply update_ext; by intros [].
Qed.

Lemma Second_onDOMContentLoaded rel href lic cmd size vw doc doc1 docblock :
  findOrCreateDocblock doc = (doc1, Return (Some docblock)) ->
  IndexTs.Second.onDOMContentLoaded rel href lic cmd size vw doc =
  (update (inject (injectedByIndexTs createVerifiedWithSection rel href lic cmd size vw))
     docblock doc1, Return tt).
Proof.
  intros H. unfold IndexTs.Second.onDOMContentLoaded. rewrite H. f_equal.
  rewrite downgradeSectionHeaders_update. unfold prepend.
  destruct size; rewrite !update_update; apply update_ext; by intros [].
Qed.

Lemma First_modifyDocument rel href lic cmd size vw doc docblock :
  querySelector "docblock" doc = Some docblock ->
  IndexTs.First.modifyDocument rel href lic cmd size vw doc =
  update (inject (injectedByIndexTs IndexTs.First.createVerifiedWithSection
                    rel href lic cmd size vw)) docblock doc.
Proof.
  intros H. unfold IndexTs.First.modifyDocument. rewrite H.
  rewrite downgradeSectionHeaders_update. unfold prepend.
  destruct size; rewrite !update_update; apply update_ext; by intros [].
Qed.

Lemma Part000_registered url lic cmd deps size vw w :
  Js.endsWith (pathname w) "/index.html" = true ->
  document (pageLoaded (Part000.registerModification url lic cmd deps size vw w))
  = fst (Part000.onDOMContentLoaded url lic cmd deps size vw (document (pageLoaded w))).
Proof.
  intros H. unfold Part000.registerModification. rewrite H. simpl negb. cbv iota.
  apply pageLoaded_addEventListener.
Qed.

Lemma Second_registered rel href lic cmd size vw w :
  Js.endsWith (pathname w) "/index.html" = true ->
  document (pageLoaded (IndexTs.Second.registerModification rel href lic cmd size vw w))
  = fst (IndexTs.Second.onDOMContentLoaded rel href lic cmd size vw (document (pageLoaded w))).
Proof.
  intros H. unfold IndexTs.Second.registerModification. rewrite H. simpl negb. cbv iota.
  apply pageLoaded_addEventListener.
Qed.

Lemma Part000_docblock_after url lic cmd deps size vw w doc1 docblock :
  Js.endsWith (pathname w) "/index.html" = true ->
  findOrCreateDocblock (document (pageLoaded w)) = (doc1, Return (Some docblock)) ->
  exists t a old,
    deref docblock doc1 = Some (Element t a old) /\
    deref docblock
      (document (pageLoaded (Part000.registerModification url lic cmd deps size vw w)))
    = Some (Element t a (injectedByPart000 url lic cmd deps size vw ++ (downgraded <$> old))).
Proof.
  intros Hpath Hfind.
  destruct (findOrCreateDocblock_element _ _ _ Hfind) as (t & a & old & Hd).
  exists t, a, old. split; [done |].
  rewrite Part000_registered by done.
  rewrite (Part000_onDOMContentLoaded _ _ _ _ _ _ _ _ _ Hfind). simpl fst.
  rewrite deref_update, Hd. simpl. by rewrite inject_Element.
Qed.

Lemma Second_docblock_after rel href lic cmd size vw w doc1 docblock :
  Js.endsWith (pathname w) "/index.html" = true ->
  findOrCreateDocblock (document (pageLoaded w)) = (doc1, Return (Some docblock)) ->
  exists t a old,
    deref docblock doc1 = Some (Element t a old) /\
    deref docblock
      (document (pageLoaded (IndexTs.Second.registerModification rel href lic cmd size vw w)))
    = Some (Element t a
              (injectedByIndexTs createVerifiedWithSection rel href lic cmd size vw
               ++ (downgraded <$> old))).
Proof.
  intros Hpath Hfind.
  destruct (findOrCreateDocblock_element _ _ _ Hfind) as (t & a & old & Hd).
  exists t, a, old. split; [done |].
  rewrite Second_registered by done.
  rewrite (Second_onDOMContentLoaded _ _ _ _ _ _ _ _ _ Hfind). simpl fst.
  rewrite deref_update, Hd. simpl. by rewrite inject_Element.
Qed.

Lemma First_docblock_after rel href lic cmd size vw w docblock :
  querySelector "docblock" (document w) = Some docblock ->
  exists t a old,
    deref docblock (document w) = Some (Element t a old) /\
    deref docblock (document (IndexTs.First.modifyDocblock rel href lic cmd size vw w))
    = Some (Element t a
              (injectedByIndexTs IndexTs.First.createVerifiedWithSection
                 rel href lic cmd size vw ++ (downgraded <$> old))).
Proof.
  intros Hfind.
  destruct (querySelector_Some _ _ _ Hfind) as (t & a & old & Hd & _).
  exists t, a, old. split; [done |].
  unfold IndexTs.First.modifyDocblock. simpl document.
  rewrite (First_modifyDocument _ _ _ _ _ _ _ _ Hfind).
  rewrite deref_update, Hd. simpl. by rewrite inject_Element.
Qed.

End Entry.

(** C1, as the code has it: once the routine has run on a page whose
    docblock exists or has been created, the docblock holds, from the
    top: the first block, the install-command block, then in
    [part_000] alone the heading "Dependencies" and the dependency
    list, then the heading "Code size" and the code-size block when the
    size is not null, the heading "Verified with", the verification
    block, the heading "Description", and right below it the content the
    docblock had, after the downgrade pass. *)
Theorem prepended_order :
  (forall url lic cmd deps size vw w doc1 docblock,
     Js.endsWith (pathname w) "/index.html" = true ->
     findOrCreateDocblock (document (pageLoaded w)) = (doc1, Return (Some docblock)) ->
     exists t a old,
       deref docblock doc1 = Some (Element t a old) /\
       deref docblock
         (document (pageLoaded (Part000.registerModification url lic cmd deps size vw w)))
       = Some (Element t a
           ([Part000.createFirstSection url lic;
             createCargoAddCommandSection cmd;
             createHeader "Dependencies" "dependencies";
             toNode (Part000.createDependenciesSection deps)]
            ++ match size with
               | Some size => [createHeader "Code size" "code-size";
                               Part000.createCodeSizeSection size]
               | None => []
               end
            ++ [createHeader "Verified with" "verified-with";
                createVerifiedWithSection vw;
                createHeader "Description" "description"]
            ++ (downgraded <$> old)))) /\
  (forall rel href lic cmd size vw w doc1 docblock,
     Js.endsWith (pathname w) "/index.html" = true ->
     findOrCreateDocblock (document (pageLoaded w)) = (doc1, Return (Some docblock)) ->
     exists t a old,
       deref docblock doc1 = Some (Element t a old) /\
       deref docblock
         (document (pageLoaded (IndexTs.Second.registerModification rel href lic cmd size vw w)))
       = Some (Element t a
           ([IndexTs.createFirstSection rel href lic;
             IndexTs.createDependencySection cmd]
            ++ match size with
               | Some size => [createHeader "Code size" "code-size";
                               IndexTs.createCodeSizeSection size]
               | None => []
               end
            ++ [createHeader "Verified with" "verified-with";
                createVerifiedWithSection vw;
                createHeader "Description" "description"]
            ++ (downgraded <$> old)))) /\
  (forall rel href lic cmd size vw w docblock,
     querySelector "docblock" (document w) = Some docblock ->
     exists t a old,
       deref docblock (document w) = Some (Element t a old) /\
       deref docblock (document (IndexTs.First.modifyDocblock rel href lic cmd size vw w))
       = Some (Element t a
           ([IndexTs.createFirstSection rel href lic;
             IndexTs.createDependencySection cmd]
            ++ match size with
               | Some size => [createHeader "Code size" "code-size";
                               IndexTs.createCodeSizeSection size]
               | None => []
               end
            ++ [createHeader "Verified with" "verified-with";
                IndexTs.First.createVerifiedWithSection vw;
                createHeader "Description" "description"]
            ++ (downgraded <$> old)))).
Proof.
  split_and!.
  - intros url lic cmd deps size vw w doc1 docblock Hpath Hfind.
    destruct (Part000_docblock_after url lic cmd deps size vw _ _ _ Hpath Hfind)
      as (t & a & old & Hd & H).
    exists t, a, old. split; [done |]. rewrite H.
    unfold injectedByPart000. by rewrite <- !app_assoc.
  - intros rel href lic cmd size vw w doc1 docblock Hpath Hfind.
    destruct (Second_docblock_after rel href lic cmd size vw _ _ _ Hpath Hfind)
      as (t & a & old & Hd & H).
    exists t, a, old. split; [done |]. rewrite H.
    unfold injectedByIndexTs. by rewrite <- !app_assoc.
  - intros rel href lic cmd size vw w docblock Hfind.
    destruct (First_docblock_after rel href lic cmd size vw _ _ Hfind)
      as (t & a & old & Hd & H).
    exists t, a, old. split; [done |]. rewrite H.
    unfold injectedByIndexTs. by rewrite <- !app_assoc.
Qed.

(** On the sample page, whose docblock exists, the second file of
    [index.ts] leaves the seven fragments above the three nodes the
    docblock had. *)
Lemma prepended_order_witness :
  Js.endsWith "/foo/index.html" "/index.html" = true /\
  deref [1; 1]
    (document (pageLoaded (IndexTs.Second.registerModification
       "Cargo.toml" "https://example.com/Cargo.toml" "MIT" "cargo add foo" (Some "1.5")
       [("https://example.com/problem", "https://example.com/solution.rs")]
       (Window "/foo/index.html" samplePage []))))
  = Some (Element "DIV" [("class", "docblock")]
      ([IndexTs.createFirstSection "Cargo.toml" "https://example.com/Cargo.toml" "MIT";
        IndexTs.createDependencySection "cargo add foo";
        createHeader "Code size" "code-size";
        IndexTs.createCodeSizeSection "1.5";
        createHeader "Verified with" "verified-with";
        createVerifiedWithSection
          [("https://example.com/problem", "https://example.com/solution.rs")];
        createHeader "Description" "description"]
       ++ [Element "P" [] [Text "A library."];
           Element "H2" [("id", "usage"); ("class", "section-header")] [
             Element "A" [("href", "#usage")] [Text "Usage"]];
           Element "H6" [("id", "notes"); ("class", "small section-header")] [Text "Notes"]])).
Proof.
  split; [reflexivity |].
  destruct (proj1 (proj2 prepended_order)
              "Cargo.toml" "https://example.com/Cargo.toml" "MIT" "cargo add foo" (Some "1.5")
              [("https://example.com/problem", "https://example.com/solution.rs")]
              (Window "/foo/index.html" samplePage []) samplePage [1; 1]
              eq_refl eq_refl) as (t & a & old & H1 & H2).
  vm_compute in H1. injection H1 as <- <- <-. exact H2.
Defined.

(** C1 as claimed fails on [part_000]: with a null code size the
    docblock of the sample page does not consist of a first block, one
    dependency block, the heading "Verified with", the verification
    block, the heading "Description" and the former content. *)
Lemma prepended_order_part000_counterexample :
  ~ (exists first dependency : node,
       childNodes <$> deref [1; 1]
         (document (pageLoaded (Part000.registerModification
            "https://example.com/tree" "MIT" "cargo add foo" [("bar", "../bar/index.html")]
            None [] (Window "/foo/index.html" samplePage []))))
       = Some ([first; dependency;
                createHeader "Verified with" "verified-with";
                createVerifiedWithSection [];
                createHeader "Description" "description"]
               ++ [Element "P" [] [Text "A library."];
                   Element "H2" [("id", "usage"); ("class", "section-header")] [
                     Element "A" [("href", "#usage")] [Text "Usage"]];
                   Element "H6" [("id", "notes"); ("class", "small section-header")]
                     [Text "Notes"]])).
Proof.
  intros (first & dependency & H). vm_compute in H. discriminate H.
Qed.

(** ** Pages the routine leaves alone *)

(** C5: on a document with no element of class [docblock] and none of
    class [fqn], the listener of either [registerModification] returns
    normally with the document as it was, so the page after the call
    and the load is the page before; [modifyDocblock] leaves alone any
    document with no element of class [docblock]. *)
Theorem no_container_no_anchor :
  (forall url lic cmd deps size vw doc,
     querySelector "docblock" doc = None ->
     querySelector "fqn" doc = None ->
     Part000.onDOMContentLoaded url lic cmd deps size vw doc = (doc, Return tt)) /\
  (forall rel href lic cmd size vw doc,
     querySelector "docblock" doc = None ->
     querySelector "fqn" doc = None ->
     IndexTs.Second.onDOMContentLoaded rel href lic cmd size vw doc = (doc, Return tt)) /\
  (forall url lic cmd deps size vw w,
     querySelector "docblock" (document (pageLoaded w)) = None ->
     querySelector "fqn" (document (pageLoaded w)) = None ->
     document (pageLoaded (Part000.registerModification url lic cmd deps size vw w))
     = document (pageLoaded w)) /\
  (forall rel href lic cmd size vw w,
     querySelector "docblock" (document (pageLoaded w)) = None ->
     querySelector "fqn" (document (pageLoaded w)) = None ->
     document (pageLoaded (IndexTs.Second.registerModification rel href lic cmd size vw w))
     = document (pageLoaded w)) /\
  (forall rel href lic cmd size vw w,
     querySelector "docblock" (document w) = None ->
     document (IndexTs.First.modifyDocblock rel href lic cmd size vw w) = document w).
Proof.
  assert (forall url lic cmd deps size vw doc,
            querySelector "docblock" doc = None ->
            querySelector "fqn" doc = None ->
            Part000.onDOMContentLoaded url lic cmd deps size vw doc = (doc, Return tt)) as H1.
  { intros. unfold Part000.onDOMContentLoaded. by rewrite findOrCreateDocblock_None. }
  assert (forall rel href lic cmd size vw doc,
            querySelector "docblock" doc = None ->
            querySelector "fqn" doc = None ->
            IndexTs.Second.onDOMContentLoaded rel href lic cmd size vw doc = (doc, Return tt)) as H2.
  { intros. unfold IndexTs.Second.onDOMContentLoaded. by rewrite findOrCreateDocblock_None. }
  split_and!; [exact H1 | exact H2 | | |].
  - intros url lic cmd deps size vw w Hd Hf. unfold Part000.registerModification.
    destruct (Js.endsWith (pathname w) "/index.html"); simpl negb; cbv iota; [| done].
    by rewrite pageLoaded_addEventListener, H1.
  - intros rel href lic cmd size vw w Hd Hf. unfold IndexTs.Second.registerModification.
    destruct (Js.endsWith (pathname w) "/index.html"); simpl negb; cbv iota; [| done].
    by rewrite pageLoaded_addEventListener, H2.
  - intros rel href lic cmd size vw w Hd. simpl. unfold IndexTs.First.modifyDocument.
    by rewrite Hd.
Qed.

(** The sample page with neither docblock nor anchor, loaded under a
    path that passes the check of [registerModification], is left as it
    is by [part_000]. *)
Lemma no_container_no_anchor_witness :
  Js.endsWith "/foo/index.html" "/index.html" = true /\
  querySelector "docblock" samplePageWithoutAnchor = None /\
  querySelector "fqn" samplePageWithoutAnchor = None /\
  document (pageLoaded (Part000.registerModification
     "https://example.com/tree" "MIT" "cargo add foo" [] (Some (Part000.SizeNumber 1536)) []
     (Window "/foo/index.html" samplePageWithoutAnchor [])))
  = samplePageWithoutAnchor.
Proof.
  split_and!; [reflexivity | reflexivity | reflexivity |].
  exact (proj1 (proj2 (proj2 no_container_no_anchor))
           "https://example.com/tree" "MIT" "cargo add foo" [] (Some (Part000.SizeNumber 1536)) []
           (Window "/foo/index.html" samplePageWithoutAnchor []) eq_refl eq_refl).
Defined.

(** C7, as the code has it: either [registerModification] called on a
    page whose path does not end in "/index.html" returns with nothing
    registered and nothing changed, so that it changes the loaded page
    only under a path with that suffix; [modifyDocblock] does not read
    the path, and what it does to the document is the same under every
    path. *)
Theorem registerModification_path_guard :
  (forall url lic cmd deps size vw w,
     Js.endsWith (pathname w) "/index.html" = false ->
     Part000.registerModification url lic cmd deps size vw w = w) /\
  (forall rel href lic cmd size vw w,
     Js.endsWith (pathname w) "/index.html" = false ->
     IndexTs.Second.registerModification rel href lic cmd size vw w = w) /\
  (forall url lic cmd deps size vw w,
     document (pageLoaded (Part000.registerModification url lic cmd deps size vw w))
       <> document (pageLoaded w) ->
     Js.endsWith (pathname w) "/index.html" = true) /\
  (forall rel href lic cmd size vw w,
     document (pageLoaded (IndexTs.Second.registerModification rel href lic cmd size vw w))
       <> document (pageLoaded w) ->
     Js.endsWith (pathname w) "/index.html" = true) /\
  (forall rel href lic cmd size vw w path,
     document (IndexTs.First.modifyDocblock rel href lic cmd size vw
                 {| pathname := path; document := document w; listeners := listeners w |})
     = document (IndexTs.First.modifyDocblock rel href lic cmd size vw w)).
Proof.
  split_and!.
  - intros url lic cmd deps size vw w H. unfold Part000.registerModification. by rewrite H.
  - intros rel href lic cmd size vw w H. unfold IndexTs.Second.registerModification.
    by rewrite H.
  - intros url lic cmd deps size vw w H. unfold Part000.registerModification in H.
    destruct (Js.endsWith (pathname w) "/index.html"); [done | by destruct H].
  - intros rel href lic cmd size vw w H. unfold IndexTs.Second.registerModification in H.
    destruct (Js.endsWith (pathname w) "/index.html"); [done | by destruct H].
  - reflexivity.
Qed.

(** Under the path of a page for a struct, [part_000] leaves the sample
    page alone, loaded or not. *)
Lemma registerModification_path_guard_witness :
  Js.endsWith "/foo/struct.Foo.html" "/index.html" = false /\
  pageLoaded (Part000.registerModification
     "https://example.com/tree" "MIT" "cargo add foo" [] None []
     (Window "/foo/struct.Foo.html" samplePage []))
  = pageLoaded (Window "/foo/struct.Foo.html" samplePage []).
Proof.
  split; [reflexivity |].
  apply (f_equal pageLoaded).
  exact (proj1 registerModification_path_guard
           "https://example.com/tree" "MIT" "cargo add foo" [] None []
           (Window "/foo/struct.Foo.html" samplePage []) eq_refl).
Defined.

(** C7 as claimed fails on [modifyDocblock]: under a path that does not
    end in "/index.html" it changes the sample page. *)
Lemma modifyDocblock_ignores_path :
  Js.endsWith "/foo/struct.Foo.html" "/index.html" = false /\
  document (IndexTs.First.modifyDocblock
     "Cargo.toml" "https://example.com/Cargo.toml" "MIT" "cargo add foo" None []
     (Window "/foo/struct.Foo.html" samplePage []))
  <> samplePage.
Proof.
  split; [reflexivity |]. intros H. vm_compute in H. discriminate H.
Qed.

(** ** The injected fragments and the marker class *)

Section Marked.

Local Abbreviation marked := (matchesClass "section-header").

Lemma matchingFrom_nil sel i (cs : list node) :
  Forall (fun c => matching sel c = []) cs -> matchingFrom sel i cs = [].
Proof.
  intros H. revert i. induction H as [| c cs Hc _ IH]; intros i; simpl; [done |].
  by rewrite Hc, IH.
Qed.

Lemma matching_nil sel t a (cs : list node) :
  sel (Element t a cs) = false ->
  Forall (fun c => matching sel c = []) cs ->
  matching sel (Element t a cs) = [].
Proof.
  intros Hs H. rewrite matching_Element, Hs. simpl. by apply matchingFrom_nil.
Qed.

Lemma verifiedWithItems_unmarked (verifiedWith : list (string * string)) :
  Forall (fun c => matching marked c = []) (verifiedWithItem <$> verifiedWith).
Proof. apply Forall_fmap, Forall_forall. by intros [problemURL blobURL] _. Qed.

Lemma createVerifiedWithSection_unmarked verifiedWith :
  matching marked (createVerifiedWithSection verifiedWith) = [].
Proof.
  rewrite createVerifiedWithSection_shape.
  apply matching_nil; [done |]. apply Forall_app. split.
  - destruct verifiedWith as [| p1 [| p2 rest]]; by repeat constructor.
  - constructor; [| constructor].
    apply matching_nil; [done |]. apply verifiedWithItems_unmarked.
Qed.

Lemma First_createVerifiedWithSection_unmarked verifiedWith :
  matching marked (IndexTs.First.createVerifiedWithSection verifiedWith) = [].
Proof.
  rewrite First_createVerifiedWithSection_shape.
  apply matching_nil; [done |]. apply verifiedWithItems_unmarked.
Qed.

Lemma createDependenciesSection_unmarked items :
  matching marked (toNode (Part000.createDependenciesSection items)) = [].
Proof.
  destruct items as [| pair items]; [done |].
  rewrite createDependenciesSection_cons.
  change (matching marked (Element "UL" [] (Part000.dependencyItem <$> pair :: items)) = []).
  apply matching_nil; [done |].
  apply Forall_fmap, Forall_forall. by intros [text href] _.
Qed.

Lemma onlyH1_unmarked x : matching marked x = [] -> onlyH1 x.
Proof. intros H p e Hp. rewrite H in Hp. by apply elem_of_nil in Hp. Qed.

Lemma onlyH1_createHeader name id : onlyH1 (createHeader name id).
Proof.
  intros p e Hp. change (matching marked (createHeader name id)) with [[] : ref] in Hp.
  apply list_elem_of_singleton in Hp as ->. simpl. by intros [= <-].
Qed.

Lemma injectedByPart000_onlyH1 url lic cmd deps size vw :
  Forall onlyH1 (injectedByPart000 url lic cmd deps size vw).
Proof.
  unfold injectedByPart000. rewrite !Forall_app. split_and!.
  - repeat constructor; try apply onlyH1_createHeader; apply onlyH1_unmarked; try done.
    apply createDependenciesSection_unmarked.
  - destruct size as [[b | text] |]; repeat constructor;
      try apply onlyH1_createHeader; by apply onlyH1_unmarked.
  - repeat constructor; try apply onlyH1_createHeader.
    apply onlyH1_unmarked, createVerifiedWithSection_unmarked.
Qed.

Lemma injectedByIndexTs_onlyH1 section rel href lic cmd size vw :
  (forall vw, matching marked (section vw) = []) ->
  Forall onlyH1 (injectedByIndexTs section rel href lic cmd size vw).
Proof.
  intros Hsection. unfold injectedByIndexTs. rewrite !Forall_app. split_and!.
  - repeat constructor; by apply onlyH1_unmarked.
  - destruct size as [text |]; repeat constructor;
      try apply onlyH1_createHeader; by apply onlyH1_unmarked.
  - repeat constructor; try apply onlyH1_createHeader.
    apply onlyH1_unmarked, Hsection.
Qed.

End Marked.

(** C10: a heading the routine builds is an H1 that carries the marker
    class the downgrade pass selects on; and after one run the docblock
    holds the fragments as they were built, in which everything that
    carries the marker class is still an H1, above the former content
    of the docblock, which alone has been through the pass. *)
Theorem injected_headings_stay_H1 :
  (forall name id : string,
     createHeader name id =
       Element "H1" [("id", id); ("class", "section-header")]
         [Element "A" [("href", "#" +:+ id)] [Text name]] /\
     matchesClass "section-header" (createHeader name id) = true) /\
  (forall url lic cmd deps size vw w doc1 docblock,
     Js.endsWith (pathname w) "/index.html" = true ->
     findOrCreateDocblock (document (pageLoaded w)) = (doc1, Return (Some docblock)) ->
     exists t a old,
       deref docblock doc1 = Some (Element t a old) /\
       deref docblock
         (document (pageLoaded (Part000.registerModification url lic cmd deps size vw w)))
       = Some (Element t a (injectedByPart000 url lic cmd deps size vw ++ (downgraded <$> old))) /\
       Forall onlyH1 (injectedByPart000 url lic cmd deps size vw)) /\
  (forall rel href lic cmd size vw w doc1 docblock,
     Js.endsWith (pathname w) "/index.html" = true ->
     findOrCreateDocblock (document (pageLoaded w)) = (doc1, Return (Some docblock)) ->
     exists t a old,
       deref docblock doc1 = Some (Element t a old) /\
       deref docblock
         (document (pageLoaded (IndexTs.Second.registerModification rel href lic cmd size vw w)))
       = Some (Element t a
                 (injectedByIndexTs createVerifiedWithSection rel href lic cmd size vw
                  ++ (downgraded <$> old))) /\
       Forall onlyH1 (injectedByIndexTs createVerifiedWithSection rel href lic cmd size vw)) /\
  (forall rel href lic cmd size vw w docblock,
     querySelector "docblock" (document w) = Some docblock ->
     exists t a old,
       deref docblock (document w) = Some (Element t a old) /\
       deref docblock (document (IndexTs.First.modifyDocblock rel href lic cmd size vw w))
       = Some (Element t a
                 (injectedByIndexTs IndexTs.First.createVerifiedWithSection
                    rel href lic cmd size vw ++ (downgraded <$> old))) /\
       Forall onlyH1 (injectedByIndexTs IndexTs.First.createVerifiedWithSection
                        rel href lic cmd size vw)).
Proof.
  split_and!.
  - intros name id. split; reflexivity.
  - intros url lic cmd deps size vw w doc1 docblock Hpath Hfind.
    destruct (Part000_docblock_after url lic cmd deps size vw _ _ _ Hpath Hfind)
      as (t & a & old & Hd & H).
    exists t, a, old. split_and!; [done | done |]. apply injectedByPart000_onlyH1.
  - intros rel href lic cmd size vw w doc1 docblock Hpath Hfind.
    destruct (Second_docblock_after rel href lic cmd size vw _ _ _ Hpath Hfind)
      as (t & a & old & Hd & H).
    exists t, a, old. split_and!; [done | done |].
    apply injectedByIndexTs_onlyH1, createVerifiedWithSection_unmarked.
  - intros rel href lic cmd size vw w docblock Hfind.
    destruct (First_docblock_after rel href lic cmd size vw _ _ Hfind)
      as (t & a & old & Hd & H).
    exists t, a, old. split_and!; [done | done |].
    apply injectedByIndexTs_onlyH1, First_createVerifiedWithSection_unmarked.
Qed.

(** On the sample page [part_000] leaves four headings of its own, all
    H1, and the heading "Usage" of the page as an H2. *)
Lemma injected_headings_stay_H1_witness :
  Js.endsWith "/foo/index.html" "/index.html" = true /\
  (tagName <$>
     filter (fun x => matchesClass "section-header" x = true)
       (default []
          (childNodes <$> deref [1; 1]
             (document (pageLoaded (Part000.registerModification
                "https://example.com/tree" "MIT" "cargo add foo" [("bar", "../bar/index.html")]
                (Some (Part000.SizeNumber 1536)) []
                (Window "/foo/index.html" samplePage [])))))))
  = ["H1"; "H1"; "H1"; "H1"; "H2"; "H6"].
Proof.
  split; [reflexivity |].
  destruct (proj1 (proj2 injected_headings_stay_H1)
              "https://example.com/tree" "MIT" "cargo add foo" [("bar", "../bar/index.html")]
              (Some (Part000.SizeNumber 1536)) []
              (Window "/foo/index.html" samplePage []) samplePage [1; 1]
              eq_refl eq_refl) as (t & a & old & H1 & H2 & _).
  vm_compute in H1. injection H1 as <- <- <-. rewrite H2. reflexivity.
Defined.

(** ** The optional code-size fragments *)

Section CodeSize.

Local Abbreviation notCodeSize x :=
  (x <> createHeader "Code size" "code-size" /\
   (forall size, x <> Part000.createCodeSizeSection size) /\
   (forall size, x <> IndexTs.createCodeSizeSection size)).

Lemma Part000_createCodeSizeSection_shape size :
  exists rest li2 li3,
    Part000.createCodeSizeSection size =
    Element "UL" [] [Element "LI" [] (Text "unmodified: " :: rest); li2; li3].
Proof. destruct size; do 3 eexists; reflexivity. Qed.

Lemma notCodeSize_tag (x : node) :
  tagName x <> "H1" -> tagName x <> "UL" -> notCodeSize x.
Proof.
  intros H1 H2. split_and!.
  - intros ->. by apply H1.
  - intros size ->. apply H2. by destruct size.
  - intros size ->. by apply H2.
Qed.

Lemma notCodeSize_createHeader name id :
  id <> "code-size" -> notCodeSize (createHeader name id).
Proof.
  intros Hid. split_and!.
  - intros [= _ H]. by apply Hid.
  - intros size H. apply (f_equal tagName) in H. by destruct size.
  - intros size H. apply (f_equal tagName) in H. done.
Qed.

Lemma notCodeSize_createVerifiedWithSection vw : notCodeSize (createVerifiedWithSection vw).
Proof. rewrite createVerifiedWithSection_shape. by apply notCodeSize_tag. Qed.

Lemma notCodeSize_First_createVerifiedWithSection vw :
  notCodeSize (IndexTs.First.createVerifiedWithSection vw).
Proof.
  rewrite First_createVerifiedWithSection_shape. split_and!.
  - done.
  - intros size H. destruct (Part000_createCodeSizeSection_shape size) as (r & l2 & l3 & E).
    rewrite E in H. destruct vw as [| [problemURL blobURL] vw]; [done |].
    simpl in H. discriminate H.
  - intros size H. destruct vw as [| [problemURL blobURL] vw]; [done |].
    simpl in H. discriminate H.
Qed.

Lemma notCodeSize_createDependenciesSection items :
  notCodeSize (toNode (Part000.createDependenciesSection items)).
Proof.
  destruct items as [| [text href] items]; [done |].
  rewrite createDependenciesSection_cons. split_and!.
  - done.
  - intros size H. destruct (Part000_createCodeSizeSection_shape size) as (r & l2 & l3 & E).
    rewrite E in H. simpl in H. discriminate H.
  - intros size H. simpl in H. discriminate H.
Qed.

Lemma notCodeSize_Part000_createFirstSection url lic :
  notCodeSize (Part000.createFirstSection url lic).
Proof.
  split_and!.
  - done.
  - intros size H. apply (f_equal (fun x => length (childNodes x))) in H.
    by destruct size.
  - intros size H. apply (f_equal (fun x => length (childNodes x))) in H. done.
Qed.

Lemma notCodeSize_IndexTs_createFirstSection rel href lic :
  notCodeSize (IndexTs.createFirstSection rel href lic).
Proof.
  split_and!.
  - done.
  - intros size H. apply (f_equal (fun x => length (childNodes x))) in H.
    by destruct size.
  - intros size H. apply (f_equal (fun x => length (childNodes x))) in H. done.
Qed.

End CodeSize.

(** C8: with a null code size the docblock gets the fragments of the
    other blocks, none of which is the heading "Code size" or a
    code-size block, above its former content; with a size the same
    fragments are there in the same order, and the heading "Code size"
    and the code-size block stand between the dependency fragments and
    the heading "Verified with". *)
Theorem absent_code_size :
  (forall url lic cmd deps vw w doc1 docblock,
     Js.endsWith (pathname w) "/index.html" = true ->
     findOrCreateDocblock (document (pageLoaded w)) = (doc1, Return (Some docblock)) ->
     exists t a old,
       deref docblock doc1 = Some (Element t a old) /\
       deref docblock
         (document (pageLoaded (Part000.registerModification url lic cmd deps None vw w)))
       = Some (Element t a
           ([Part000.createFirstSection url lic;
             createCargoAddCommandSection cmd;
             createHeader "Dependencies" "dependencies";
             toNode (Part000.createDependenciesSection deps);
             createHeader "Verified with" "verified-with";
             createVerifiedWithSection vw;
             createHeader "Description" "description"]
            ++ (downgraded <$> old))) /\
       Forall (fun x => x <> createHeader "Code size" "code-size" /\
                        forall size, x <> Part000.createCodeSizeSection size)
         [Part000.createFirstSection url lic;
          createCargoAddCommandSection cmd;
          createHeader "Dependencies" "dependencies";
          toNode (Part000.createDependenciesSection deps);
          createHeader "Verified with" "verified-with";
          createVerifiedWithSection vw;
          createHeader "Description" "description"] /\
       forall size,
         deref docblock
           (document (pageLoaded (Part000.registerModification url lic cmd deps (Some size) vw w)))
         = Some (Element t a
             ([Part000.createFirstSection url lic;
               createCargoAddCommandSection cmd;
               createHeader "Dependencies" "dependencies";
               toNode (Part000.createDependenciesSection deps)]
              ++ [createHeader "Code size" "code-size"; Part000.createCodeSizeSection size]
              ++ [createHeader "Verified with" "verified-with";
                  createVerifiedWithSection vw;
                  createHeader "Description" "description"]
              ++ (downgraded <$> old)))) /\
  (forall rel href lic cmd vw w doc1 docblock,
     Js.endsWith (pathname w) "/index.html" = true ->
     findOrCreateDocblock (document (pageLoaded w)) = (doc1, Return (Some docblock)) ->
     exists t a old,
       deref docblock doc1 = Some (Element t a old) /\
       deref docblock
         (document (pageLoaded (IndexTs.Second.registerModification rel href lic cmd None vw w)))
       = Some (Element t a
           ([IndexTs.createFirstSection rel href lic;
             IndexTs.createDependencySection cmd;
             createHeader "Verified with" "verified-with";
             createVerifiedWithSection vw;
             createHeader "Description" "description"]
            ++ (downgraded <$> old))) /\
       Forall (fun x => x <> createHeader "Code size" "code-size" /\
                        forall size, x <> IndexTs.createCodeSizeSection size)
         [IndexTs.createFirstSection rel href lic;
          IndexTs.createDependencySection cmd;
          createHeader "Verified with" "verified-with";
          createVerifiedWithSection vw;
          createHeader "Description" "description"] /\
       forall size,
         deref docblock
           (document (pageLoaded
              (IndexTs.Second.registerModification rel href lic cmd (Some size) vw w)))
         = Some (Element t a
             ([IndexTs.createFirstSection rel href lic;
               IndexTs.createDependencySection cmd]
              ++ [createHeader "Code size" "code-size"; IndexTs.createCodeSizeSection size]
              ++ [createHeader "Verified with" "verified-with";
                  createVerifiedWithSection vw;
                  createHeader "Description" "description"]
              ++ (downgraded <$> old)))) /\
  (forall rel href lic cmd vw w docblock,
     querySelector "docblock" (document w) = Some docblock ->
     exists t a old,
       deref docblock (document w) = Some (Element t a old) /\
       deref docblock (document (IndexTs.First.modifyDocblock rel href lic cmd None vw w))
       = Some (Element t a
           ([IndexTs.createFirstSection rel href lic;
             IndexTs.createDependencySection cmd;
             createHeader "Verified with" "verified-with";
             IndexTs.First.createVerifiedWithSection vw;
             createHeader "Description" "description"]
            ++ (downgraded <$> old))) /\
       Forall (fun x => x <> createHeader "Code size" "code-size" /\
                        forall size, x <> IndexTs.createCodeSizeSection size)
         [IndexTs.createFirstSection rel href lic;
          IndexTs.createDependencySection cmd;
          createHeader "Verified with" "verified-with";
          IndexTs.First.createVerifiedWithSection vw;
          createHeader "Description" "description"] /\
       forall size,
         deref docblock
           (document (IndexTs.First.modifyDocblock rel href lic cmd (Some size) vw w))
         = Some (Element t a
             ([IndexTs.createFirstSection rel href lic;
               IndexTs.createDependencySection cmd]
              ++ [createHeader "Code size" "code-size"; IndexTs.createCodeSizeSection size]
              ++ [createHeader "Verified with" "verified-with";
                  IndexTs.First.createVerifiedWithSection vw;
                  createHeader "Description" "description"]
              ++ (downgraded <$> old)))).
Proof.
  split_and!.
  - intros url lic cmd deps vw w doc1 docblock Hpath Hfind.
    destruct (Part000_docblock_after url lic cmd deps None vw _ _ _ Hpath Hfind)
      as (t & a & old & Hd & H).
    exists t, a, old. split_and!; [done | exact H | |].
    + repeat constructor;
        first [ apply notCodeSize_Part000_createFirstSection
              | apply notCodeSize_createDependenciesSection
              | apply notCodeSize_createVerifiedWithSection
              | by apply notCodeSize_createHeader
              | by apply notCodeSize_tag ].
    + intros size.
      destruct (Part000_docblock_after url lic cmd deps (Some size) vw _ _ _ Hpath Hfind)
        as (t' & a' & old' & Hd' & H').
      rewrite Hd in Hd'. injection Hd' as <- <- <-. exact H'.
  - intros rel href lic cmd vw w doc1 docblock Hpath Hfind.
    destruct (Second_docblock_after rel href lic cmd None vw _ _ _ Hpath Hfind)
      as (t & a & old & Hd & H).
    exists t, a, old. split_and!; [done | exact H | |].
    + repeat constructor;
        first [ apply notCodeSize_IndexTs_createFirstSection
              | apply notCodeSize_createVerifiedWithSection
              | by apply notCodeSize_createHeader
              | by apply notCodeSize_tag ].
    + intros size.
      destruct (Second_docblock_after rel href lic cmd (Some size) vw _ _ _ Hpath Hfind)
        as (t' & a' & old' & Hd' & H').
      rewrite Hd in Hd'. injection Hd' as <- <- <-. exact H'.
  - intros rel href lic cmd vw w docblock Hfind.
    destruct (First_docblock_after rel href lic cmd None vw _ _ Hfind)
      as (t & a & old & Hd & H).
    exists t, a, old. split_and!; [done | exact H | |].
    + repeat constructor;
        first [ apply notCodeSize_IndexTs_createFirstSection
              | apply notCodeSize_First_createVerifiedWithSection
              | by apply notCodeSize_createHeader
              | by apply notCodeSize_tag ].
    + intros size.
      destruct (First_docblock_after rel href lic cmd (Some size) vw _ _ Hfind)
        as (t' & a' & old' & Hd' & H').
      rewrite Hd in Hd'. injection Hd' as <- <- <-. exact H'.
Qed.

(** On the sample page and with a null code size, [part_000] leaves
    seven fragments above the three nodes the docblock had. *)
Lemma absent_code_size_witness :
  Js.endsWith "/foo/index.html" "/index.html" = true /\
  (tagName <$>
     default []
       (childNodes <$> deref [1; 1]
          (document (pageLoaded (Part000.registerModification
             "https://example.com/tree" "MIT" "cargo add foo" [("bar", "../bar/index.html")]
             None [("https://example.com/problem", "https://example.com/solution.rs")]
             (Window "/foo/index.html" samplePage []))))))
  = ["UL"; "PRE"; "H1"; "UL"; "H1"; "DIV"; "H1"; "P"; "H2"; "H6"].
Proof.
  split; [reflexivity |].
  destruct (proj1 absent_code_size
              "https://example.com/tree" "MIT" "cargo add foo" [("bar", "../bar/index.html")]
              [("https://example.com/problem", "https://example.com/solution.rs")]
              (Window "/foo/index.html" samplePage []) samplePage [1; 1]
              eq_refl eq_refl) as (t & a & old & H1 & H2 & _).
  vm_compute in H1. injection H1 as <- <- <-. rewrite H2. reflexivity.
Defined.

(** ** Further properties of the code *)

(** *** The size shown and the path accepted *)

Lemma decimalValue_string_of_N (n : N) : decimalValue (Js.string_of_N n) = Some n.
Proof.
  unfold decimalValue, Js.string_of_N.
  rewrite NilZero.usu.
  - simpl. by rewrite DecimalN.Unsigned.of_to.
  - destruct n; [done |]. apply DecimalPos.Unsigned.to_uint_nonnil.
Qed.

(** X1: the size shown for a number of bytes is cut, not rounded: the
    figure after the point is one digit, and the number shown with one
    decimal is the largest that does not exceed the size in KiB; the
    digits shown read back as these two numbers. *)
Theorem createCodeSizeSection_truncates (b : N) :
  (b <= Js.MAX_SAFE_INTEGER)%N ->
  exists whole tenths : N,
    childNodes (Part000.createCodeSizeSection (Part000.SizeNumber b)) !! 0 =
      Some (Element "LI" []
              [Text "unmodified: ";
               Text (Js.string_of_N whole +:+ "." +:+ Js.string_of_N tenths +:+ " KiB");
               Text " + (not yet implemented) KiB"]) /\
    (tenths <= 9)%N /\
    String.length (Js.string_of_N tenths) = 1 /\
    (1024 * (10 * whole + tenths) <= 10 * b < 1024 * (10 * whole + tenths + 1))%N /\
    decimalValue (Js.string_of_N whole) = Some whole /\
    decimalValue (Js.string_of_N tenths) = Some tenths.
Proof.
  intros _. exists (b / 1024)%N, (10 * (b mod 1024) / 1024)%N.
  assert ((10 * (b mod 1024) / 1024 <= 9)%N /\
          (1024 * (10 * (b / 1024) + 10 * (b mod 1024) / 1024) <= 10 * b
           < 1024 * (10 * (b / 1024) + 10 * (b mod 1024) / 1024 + 1))%N) as [Hten Hcut].
  { pose proof (N.div_mod b 1024 ltac:(done)) as H1.
    pose proof (N.div_mod (10 * (b mod 1024)) 1024 ltac:(done)) as H2.
    pose proof (N.mod_upper_bound b 1024 ltac:(done)) as H3.
    pose proof (N.mod_upper_bound (10 * (b mod 1024)) 1024 ltac:(done)) as H4.
    revert H1 H2 H3 H4.
    generalize (10 * (b mod 1024) / 1024)%N ((10 * (b mod 1024)) mod 1024)%N.
    generalize (b / 1024)%N (b mod 1024)%N. intros q r t r' H1 H2 H3 H4. lia. }
  split_and!; [reflexivity | exact Hten | | apply Hcut | apply Hcut
              | apply decimalValue_string_of_N | apply decimalValue_string_of_N].
  remember (10 * (b mod 1024) / 1024)%N as t eqn:Ht. clear Ht Hcut.
  assert (t = 0 \/ t = 1 \/ t = 2 \/ t = 3 \/ t = 4 \/ t = 5 \/ t = 6 \/ t = 7 \/ t = 8
          \/ t = 9)%N as H by lia.
  repeat (destruct H as [-> | H]; [reflexivity |]). by subst.
Qed.

(** 1023 bytes are shown as "0.9 KiB". *)
Lemma createCodeSizeSection_truncates_witness :
  (1023 <= Js.MAX_SAFE_INTEGER)%N /\
  exists whole tenths : N,
    childNodes (Part000.createCodeSizeSection (Part000.SizeNumber 1023)) !! 0 =
      Some (Element "LI" []
              [Text "unmodified: ";
               Text (Js.string_of_N whole +:+ "." +:+ Js.string_of_N tenths +:+ " KiB");
               Text " + (not yet implemented) KiB"]) /\
    (tenths <= 9)%N.
Proof.
  assert ((1023 <= Js.MAX_SAFE_INTEGER)%N) as H by (vm_compute; discriminate).
  split; [exact H |].
  destruct (createCodeSizeSection_truncates 1023 H) as (whole & tenths & H1 & H2 & _).
  by exists whole, tenths.
Defined.

Lemma substring_all (s : string) : String.substring 0 (String.length s) s = s.
Proof. induction s as [| c s IH]; simpl; [done |]. by rewrite IH. Qed.

Lemma substring_skip (pre s : string) (m : nat) :
  String.substring (String.length pre) m (pre +:+ s) = String.substring 0 m s.
Proof. induction pre as [| c pre IH]; [done |]. exact IH. Qed.

Lemma length_app_string (pre s : string) :
  String.length (pre +:+ s) = String.length pre + String.length s.
Proof. induction pre as [| c pre IH]; [done |]. simpl. by rewrite <- IH. Qed.

Lemma substring_split (s : string) (k : nat) :
  k <= String.length s ->
  s = String.substring 0 k s +:+ String.substring k (String.length s - k) s.
Proof.
  revert k. induction s as [| c s IH]; intros k Hk.
  - simpl in Hk. by replace k with 0 by lia.
  - destruct k as [| k].
    + change (String c s = String.substring 0 (String.length (String c s)) (String c s)).
      by rewrite substring_all.
    + simpl in Hk.
      change (String c s =
              String c (String.substring 0 k s +:+ String.substring k (String.length s - k) s)).
      f_equal. apply IH. lia.
Qed.

(** [endsWith] holds of the strings that are the suffix with something
    before it. *)
Lemma endsWith_spec (s suffix : string) :
  Js.endsWith s suffix = true <-> exists pre, s = pre +:+ suffix.
Proof.
  unfold Js.endsWith. split.
  - destruct (Nat.leb_spec (String.length suffix) (String.length s)) as [Hle |]; [| done].
    intros H%String.eqb_eq.
    exists (String.substring 0 (String.length s - String.length suffix) s).
    etrans; [apply (substring_split s (String.length s - String.length suffix)); lia |].
    f_equal.
    replace (String.length s - (String.length s - String.length suffix))
      with (String.length suffix) by lia.
    exact H.
  - intros [pre ->]. rewrite length_app_string.
    destruct (Nat.leb_spec (String.length suffix) (String.length pre + String.length suffix));
      [| lia].
    apply String.eqb_eq.
    replace (String.length pre + String.length suffix - String.length suffix)
      with (String.length pre) by lia.
    by rewrite substring_skip, substring_all.
Qed.

(** X2: either [registerModification] registers its listener, after
    the listeners there are, on the pages whose path is "/index.html"
    with something before it, leaving the document alone at the time of
    the call; on any other path it returns with the page as it was. *)
Theorem registerModification_accepts :
  (forall url lic cmd deps size vw w pre,
     pathname w = pre +:+ "/index.html" ->
     Part000.registerModification url lic cmd deps size vw w =
     {| pathname := pathname w;
        document := document w;
        listeners := listeners w ++
          [("DOMContentLoaded", Part000.onDOMContentLoaded url lic cmd deps size vw)] |}) /\
  (forall rel href lic cmd size vw w pre,
     pathname w = pre +:+ "/index.html" ->
     IndexTs.Second.registerModification rel href lic cmd size vw w =
     {| pathname := pathname w;
        document := document w;
        listeners := listeners w ++
          [("DOMContentLoaded", IndexTs.Second.onDOMContentLoaded rel href lic cmd size vw)] |}) /\
  (forall url lic cmd deps size vw w,
     (forall pre, pathname w <> pre +:+ "/index.html") ->
     Part000.registerModification url lic cmd deps size vw w = w) /\
  (forall rel href lic cmd size vw w,
     (forall pre, pathname w <> pre +:+ "/index.html") ->
     IndexTs.Second.registerModification rel href lic cmd size vw w = w).
Proof.
  split_and!.
  - intros url lic cmd deps size vw w pre H. unfold Part000.registerModification.
    by rewrite (proj2 (endsWith_spec _ _) (ex_intro _ pre H)).
  - intros rel href lic cmd size vw w pre H. unfold IndexTs.Second.registerModification.
    by rewrite (proj2 (endsWith_spec _ _) (ex_intro _ pre H)).
  - intros url lic cmd deps size vw w H. unfold Part000.registerModification.
    destruct (Js.endsWith (pathname w) "/index.html") eqn:E; [| done].
    apply endsWith_spec in E as [pre E]. by destruct (H pre).
  - intros rel href lic cmd size vw w H. unfold IndexTs.Second.registerModification.
    destruct (Js.endsWith (pathname w) "/index.html") eqn:E; [| done].
    apply endsWith_spec in E as [pre E]. by destruct (H pre).
Qed.

(** The page of a crate is accepted with the listener that was there
    kept first. *)
Lemma registerModification_accepts_witness :
  fst <$> listeners
    (IndexTs.Second.registerModification "Cargo.toml" "https://example.com/Cargo.toml" "MIT"
       "cargo add foo" None []
       (Window "/foo/index.html" samplePage [("click", fun doc => (doc, Return tt))]))
  = ["click"; "DOMContentLoaded"].
Proof.
  rewrite (proj1 (proj2 registerModification_accepts)
             "Cargo.toml" "https://example.com/Cargo.toml" "MIT" "cargo add foo" None []
             (Window "/foo/index.html" samplePage [("click", fun doc => (doc, Return tt))])
             "/foo" eq_refl).
  reflexivity.
Defined.

(** *** The docblock the routine finds or creates *)

Section Anchor.

Implicit Types (doc n e x : node) (parent r q : ref) (f g : node -> node).

Lemma sibling_snoc k parent i : sibling k (parent ++ [i]) = parent ++ [i + k].
Proof.
  induction parent as [| j parent IH]; [done |].
  destruct parent as [| j' parent]; [done |].
  change (sibling k ((j :: j' :: parent) ++ [i]))
    with (j :: sibling k ((j' :: parent) ++ [i])).
  by rewrite IH.
Qed.

Lemma insertAfter_cons j q x t a cs :
  q <> [] ->
  insertAfter (j :: q) x (Element t a cs) =
  match cs !! j with
  | None => None
  | Some c =>
      match insertAfter q x c with
      | None => None
      | Some c' => Some (Element t a (<[j := c']> cs))
      end
  end.
Proof. by destruct q. Qed.

(** [insertAdjacentElement("afterend", x)] on the child [i] of the
    element at [parent] rewrites the children of that element and
    nothing else. *)
Lemma insertAfter_update parent i x doc t a cs :
  deref parent doc = Some (Element t a cs) ->
  insertAfter (parent ++ [i]) x doc =
  Some (update (fun _ => Element t a (insertAt (S i) x cs)) parent doc).
Proof.
  revert doc. induction parent as [| j parent IH]; intros doc H.
  - simpl in H. by simplify_eq.
  - destruct doc as [s | t0 a0 cs0]; [done |]. simpl in H.
    destruct (cs0 !! j) as [c |] eqn:Hj; [| done].
    change ((j :: parent) ++ [i]) with (j :: (parent ++ [i])).
    rewrite insertAfter_cons by (by destruct parent).
    rewrite Hj, (IH c H). simpl. do 2 f_equal.
    apply list_eq. intros k. destruct (decide (j = k)) as [<- |].
    + rewrite list_lookup_insert_eq by (by eapply lookup_lt_Some).
      by rewrite list_lookup_alter_eq, Hj.
    + by rewrite list_lookup_insert_ne, list_lookup_alter_ne.
Qed.

Lemma insertAt_twice {A} (x y : A) (l : list A) k :
  k <= length l ->
  insertAt k x (insertAt k y l) = take k l ++ x :: y :: drop k l.
Proof.
  intros H. unfold insertAt.
  rewrite take_app_length', drop_app_length' by (rewrite length_take_le; lia). done.
Qed.

Lemma treeBefore_asym q r : treeBefore q r -> treeBefore r q -> False.
Proof.
  revert r. induction q as [| i q IH]; intros [| j r]; simpl; try done.
  intros [? | [-> ?]] [? | [? ?]]; try lia. by apply (IH r).
Qed.

Lemma treeBefore_total q r : q = r \/ treeBefore q r \/ treeBefore r q.
Proof.
  revert r. induction q as [| i q IH]; intros [| j r]; simpl; auto.
  destruct (lt_eq_lt_dec i j) as [[? | ->] | ?]; auto.
  destruct (IH r) as [-> | [? | ?]]; auto.
Qed.

Lemma treeBefore_app_inv parent q r :
  treeBefore (parent ++ q) (parent ++ r) -> treeBefore q r.
Proof.
  induction parent as [| i parent IH]; [done |]. simpl.
  intros [? | [_ ?]]; [lia | auto].
Qed.

(** The first of a list in tree order is the member that comes before
    every other member. *)
Lemma head_treeBefore (M : list ref) r :
  StronglySorted treeBefore M ->
  r ∈ M ->
  (forall q, q ∈ M -> q = r \/ treeBefore r q) ->
  head M = Some r.
Proof.
  intros Hs Hr Hmin. destruct M as [| x M]; [by apply elem_of_nil in Hr |].
  simpl. f_equal. apply elem_of_cons in Hr as [-> | Hr]; [done |].
  apply StronglySorted_inv in Hs as [_ Hx]. rewrite Forall_forall in Hx.
  destruct (Hmin x) as [-> | Hb]; [by left | done |].
  destruct (treeBefore_asym _ _ Hb (Hx r Hr)).
Qed.

Lemma matchesClass_shell cls e e' :
  attributes e' = attributes e -> isElement e' = isElement e ->
  matchesClass cls e' = matchesClass cls e.
Proof.
  intros Ha He. unfold matchesClass, classList, getAttribute. by rewrite Ha, He.
Qed.

(** A rewrite of the node at [r] that keeps its attributes is seen, in
    the attributes of the nodes of the document, at most below [r]. *)
Lemma deref_update_shell f r q n :
  (forall e, attributes (f e) = attributes e /\ isElement (f e) = isElement e) ->
  ~ (r `prefix_of` q /\ r <> q) ->
  (fun e => (attributes e, isElement e)) <$> deref q (update f r n)
  = (fun e => (attributes e, isElement e)) <$> deref q n.
Proof.
  intros Hf. revert q n. induction r as [| i r IH]; intros q n Hq.
  - destruct q as [| j q].
    + simpl. f_equal. destruct (Hf n) as [-> ->]. done.
    + destruct Hq. split; [apply prefix_nil | done].
  - destruct n as [s | t a cs]; [done |].
    destruct q as [| j q]; [done |]. simpl.
    destruct (decide (i = j)) as [<- | Hne].
    + rewrite list_lookup_alter_eq. destruct (cs !! i) as [c |]; simpl; [| done].
      apply IH. intros [Hp Hn]. apply Hq. split; [by apply prefix_cons | congruence].
    + by rewrite list_lookup_alter_ne.
Qed.

(** [querySelector] finds the same element after a rewrite of that
    element that keeps its attributes. *)
Lemma querySelector_update cls f r doc :
  (forall e, attributes (f e) = attributes e /\ isElement (f e) = isElement e) ->
  querySelector cls doc = Some r ->
  querySelector cls (update f r doc) = Some r.
Proof.
  intros Hf Hq. unfold querySelector in *.
  pose proof (head_Some_elem_of _ _ Hq) as Hr.
  apply elem_of_matching in Hr as (e & He & Hel & Hs).
  apply head_treeBefore; [apply matching_sorted | |].
  - apply elem_of_matching. exists (f e). rewrite deref_update, He.
    destruct (Hf e) as [Ha Hi]. split_and!; [done | congruence |].
    by rewrite (matchesClass_shell cls e (f e)).
  - intros q Hin. destruct (treeBefore_total q r) as [-> | [Hb | Hb]]; auto.
    exfalso. apply elem_of_matching in Hin as (e' & He' & Hel' & Hs').
    pose proof (deref_update_shell f r q doc Hf) as Hshell.
    rewrite He' in Hshell. simpl in Hshell.
    destruct (deref q doc) as [e0 |] eqn:He0; simpl in Hshell.
    2:{ discriminate Hshell. intros [Hp _]. by apply (treeBefore_not_prefix q r). }
    assert (attributes e' = attributes e0 /\ isElement e' = isElement e0) as [Ha Hi].
    { assert (Some (attributes e', isElement e') = Some (attributes e0, isElement e0)) as H.
      { apply Hshell. intros [Hp _]. by apply (treeBefore_not_prefix q r). }
      by injection H. }
    assert (q ∈ matching (matchesClass cls) doc) as Hq0.
    { apply elem_of_matching. exists e0. split_and!; [done | congruence |].
      by rewrite <- (matchesClass_shell cls e0 e'). }
    apply head_Some in Hq as [M HM]. rewrite HM in Hq0.
    pose proof (matching_sorted (matchesClass cls) doc) as Hsorted. rewrite HM in Hsorted.
    apply StronglySorted_inv in Hsorted as [_ Hall]. rewrite Forall_forall in Hall.
    apply elem_of_cons in Hq0 as [-> | Hq0].
    + by apply (treeBefore_asym r r).
    + by apply (treeBefore_asym _ _ Hb), Hall.
Qed.

End Anchor.

Lemma findOrCreateDocblock_created doc parent i t a cs :
  querySelector "docblock" doc = None ->
  querySelector "fqn" doc = Some (parent ++ [i]) ->
  deref parent doc = Some (Element t a cs) ->
  i < length cs ->
  findOrCreateDocblock doc =
  (update (fun _ => Element t a
             (take (S i) cs
              ++ createToggleWrapper :: Element "DIV" [("class", "docblock")] []
              :: drop (S i) cs)) parent doc,
   Return (Some (parent ++ [i + 2]))).
Proof.
  intros Hd Hf Hp Hi. unfold findOrCreateDocblock. rewrite Hd, Hf.
  rewrite (insertAfter_update parent i _ doc t a cs Hp).
  erewrite insertAfter_update by (by rewrite deref_update, Hp).
  rewrite update_update, sibling_snoc.
  rewrite (update_ext _ (fun _ => Element t a
             (take (S i) cs
              ++ createToggleWrapper :: Element "DIV" [("class", "docblock")] []
              :: drop (S i) cs)) parent doc); [done |].
  intros e. unfold compose. by rewrite insertAt_twice by lia.
Qed.

Lemma querySelector_child cls doc parent i :
  querySelector cls doc = Some (parent ++ [i]) ->
  exists t a cs anchor,
    deref parent doc = Some (Element t a cs) /\ cs !! i = Some anchor /\
    matchesClass cls anchor = true.
Proof.
  intros (t' & a' & cs' & He & Hs)%querySelector_Some.
  rewrite deref_app in He. destruct (deref parent doc) as [p |] eqn:Hp; [| done].
  simpl in He. destruct (childNodes p !! i) as [c |] eqn:Hi; [| done].
  destruct p as [s | t a cs]; [done |]. simpl in Hi, He. simplify_eq.
  by exists t, a, cs, (Element t' a' cs').
Qed.

(** X3: on a document with no docblock whose first element of class
    [fqn] is the child [i] of an element, [findOrCreateDocblock] puts
    the toggle right after that child and an empty DIV of class
    [docblock] right after the toggle, changes nothing else in the
    document, and returns the DIV. *)
Theorem findOrCreateDocblock_creates doc parent i :
  querySelector "docblock" doc = None ->
  querySelector "fqn" doc = Some (parent ++ [i]) ->
  exists t a before anchor after,
    deref parent doc = Some (Element t a (before ++ anchor :: after)) /\
    length before = i /\
    matchesClass "fqn" anchor = true /\
    findOrCreateDocblock doc =
    (update (fun _ => Element t a
               (before ++ anchor :: createToggleWrapper
                :: Element "DIV" [("class", "docblock")] [] :: after)) parent doc,
     Return (Some (parent ++ [i + 2]))) /\
    deref (parent ++ [i + 2]) (fst (findOrCreateDocblock doc))
    = Some (Element "DIV" [("class", "docblock")] []).
Proof.
  intros Hd Hf.
  destruct (querySelector_child _ _ _ _ Hf) as (t & a & cs & anchor & Hp & Hi & Hs).
  pose proof (lookup_lt_Some _ _ _ Hi) as Hlen.
  exists t, a, (take i cs), anchor, (drop (S i) cs).
  assert (cs = take i cs ++ anchor :: drop (S i) cs) as Hcs.
  { by rewrite <- (take_drop_middle cs i anchor Hi) at 1. }
  assert (take (S i) cs = take i cs ++ [anchor]) as Htake.
  { by apply take_S_r. }
  assert (findOrCreateDocblock doc =
          (update (fun _ => Element t a
                     (take i cs ++ anchor :: createToggleWrapper
                      :: Element "DIV" [("class", "docblock")] [] :: drop (S i) cs)) parent doc,
           Return (Some (parent ++ [i + 2])))) as Hfind.
  { rewrite (findOrCreateDocblock_created doc parent i t a cs Hd Hf Hp Hlen).
    by rewrite Htake, <- app_assoc. }
  split_and!; [by rewrite <- Hcs | rewrite length_take_le; lia | done | exact Hfind |].
  rewrite Hfind. simpl fst. rewrite deref_app, deref_update, Hp. simpl.
  replace (i + 2) with (length (take i cs) + 2) by (rewrite length_take_le; lia).
  rewrite lookup_app_r by lia.
  replace (length (take i cs) + 2 - length (take i cs)) with 2 by lia. done.
Qed.

(** On the sample page without a docblock the docblock is created two
    places after the heading of the page. *)
Lemma findOrCreateDocblock_creates_witness :
  querySelector "docblock" samplePageWithoutDocblock = None /\
  querySelector "fqn" samplePageWithoutDocblock = Some ([1] ++ [0]) /\
  deref [1; 2] (fst (findOrCreateDocblock samplePageWithoutDocblock))
  = Some (Element "DIV" [("class", "docblock")] []).
Proof.
  split_and!; [reflexivity | reflexivity |].
  destruct (findOrCreateDocblock_creates samplePageWithoutDocblock [1] 0 eq_refl eq_refl)
    as (t & a & before & anchor & after & H1 & H2 & H3 & H4 & H5).
  exact H5.
Defined.

Lemma matchesClass_isElement cls e : matchesClass cls e = true -> isElement e = true.
Proof. unfold matchesClass. by intros [? _]%andb_true_iff. Qed.

(** X4: on a document that holds an element of class [docblock],
    [findOrCreateDocblock] leaves the document as it is, toggle
    included, and returns the first such element in tree order. *)
Theorem findOrCreateDocblock_finds_first doc (q0 : ref) e0 :
  deref q0 doc = Some e0 ->
  matchesClass "docblock" e0 = true ->
  exists (r : ref) t a cs,
    findOrCreateDocblock doc = (doc, Return (Some r)) /\
    deref r doc = Some (Element t a cs) /\
    matchesClass "docblock" (Element t a cs) = true /\
    forall (q : ref) e,
      deref q doc = Some e -> matchesClass "docblock" e = true -> q = r \/ treeBefore r q.
Proof.
  intros H0 Hs0.
  assert (q0 ∈ matching (matchesClass "docblock") doc) as Hin.
  { apply elem_of_matching. exists e0. eauto using matchesClass_isElement. }
  destruct (matching (matchesClass "docblock") doc) as [| r M] eqn:HM;
    [by apply elem_of_nil in Hin |].
  assert (querySelector "docblock" doc = Some r) as Hq.
  { unfold querySelector. by rewrite HM. }
  destruct (querySelector_Some _ _ _ Hq) as (t & a & cs & Hr & Hs).
  exists r, t, a, cs. split_and!; [| done | done |].
  - unfold findOrCreateDocblock. by rewrite Hq.
  - intros q e Hq' Hs'.
    assert (q ∈ r :: M) as Hq''.
    { rewrite <- HM. apply elem_of_matching. exists e. eauto using matchesClass_isElement. }
    apply elem_of_cons in Hq'' as [-> | Hq'']; [by left | right].
    pose proof (matching_sorted (matchesClass "docblock") doc) as Hsorted.
    rewrite HM in Hsorted. apply StronglySorted_inv in Hsorted as [_ Hall].
    rewrite Forall_forall in Hall. by apply Hall.
Qed.

(** On the sample page, where the notes of the docblock are given the
    class too, the docblock is found and not the notes. *)
Lemma findOrCreateDocblock_finds_first_witness :
  exists r : ref,
    findOrCreateDocblock
      (update (setAttribute "class" "docblock") [1; 1; 2] samplePage)
    = (update (setAttribute "class" "docblock") [1; 1; 2] samplePage, Return (Some r)) /\
    (r = [1; 1] \/ treeBefore r [1; 1]).
Proof.
  destruct (findOrCreateDocblock_finds_first
              (update (setAttribute "class" "docblock") [1; 1; 2] samplePage) [1; 1; 2]
              (Element "H6" [("id", "notes"); ("class", "docblock")] [Text "Notes"])
              eq_refl eq_refl) as (r & t & a & cs & H1 & H2 & H3 & H4).
  exists r. split; [exact H1 |].
  destruct (H4 [1; 1]
              (Element "DIV" [("class", "docblock")] [
                 Element "P" [] [Text "A library."];
                 Element "H1" [("id", "usage"); ("class", "section-header")] [
                   Element "A" [("href", "#usage")] [Text "Usage"]];
                 Element "H6" [("id", "notes"); ("class", "docblock")] [Text "Notes"]])
              eq_refl eq_refl) as [-> | H]; auto.
Defined.

(** A document on which [findOrCreateDocblock] has returned a docblock
    holds that docblock as its first element of class [docblock]. *)
Lemma findOrCreateDocblock_querySelector doc doc1 (docblock : ref) :
  findOrCreateDocblock doc = (doc1, Return (Some docblock)) ->
  querySelector "docblock" doc1 = Some docblock.
Proof.
  intros Hfind.
  destruct (findOrCreateDocblock_Some _ _ _ Hfind)
    as [[Hq ->] | (Hd & fqn & Hf & Hne & -> & Hdb & Htoggle & Hanchor)]; [done |].
  destruct (exists_last Hne) as (parent & i & ->).
  destruct (querySelector_child _ _ _ _ Hf) as (t & a & cs & anchor & Hp & Hi & Hs).
  pose proof (lookup_lt_Some _ _ _ Hi) as Hlen.
  rewrite (findOrCreateDocblock_created doc parent i t a cs Hd Hf Hp Hlen) in Hfind.
  injection Hfind as <-. rewrite sibling_snoc in *.
  set (cs2 := take (S i) cs ++ createToggleWrapper
              :: Element "DIV" [("class", "docblock")] [] :: drop (S i) cs) in *.
  assert (length (take (S i) cs) = S i) as Htake by (rewrite length_take_le; lia).
  apply head_None in Hd.
  unfold querySelector. apply head_treeBefore; [apply matching_sorted | |].
  { apply elem_of_matching. eexists. split; [exact Hdb | done]. }
  intros q Hin. destruct (treeBefore_total q (parent ++ [i + 2])) as [-> | [Hb | Hb]]; auto.
  exfalso. apply elem_of_matching in Hin as (e' & He' & Hel' & Hs').
  assert (forall e0, deref q doc = Some e0 -> attributes e0 = attributes e' ->
                     isElement e0 = isElement e' -> False) as Hnone.
  { intros e0 He0 Ha Hel0.
    assert (q ∈ matching (matchesClass "docblock") doc) as Hq.
    { apply elem_of_matching. exists e0. split_and!; [done | congruence |].
      by rewrite (matchesClass_shell "docblock" e' e0). }
    rewrite Hd in Hq. by apply elem_of_nil in Hq. }
  destruct (decide (parent `prefix_of` q /\ parent <> q)) as [[[q' ->] Hneq] | Hnot].
  - destruct q' as [| j q']; [by rewrite app_nil_r in Hneq |].
    apply treeBefore_app_inv in Hb. simpl in Hb.
    assert (j < i + 2) as Hj by (destruct Hb as [? | [_ Hb]]; [lia | by destruct q']).
    rewrite deref_app, deref_update, Hp in He'. simpl in He'.
    destruct (decide (j = S i)) as [-> | Hji].
    + unfold cs2 in He'. rewrite lookup_app_r, Htake, Nat.sub_diag in He' by lia.
      simpl in He'.
      assert (q' ∈ matching (matchesClass "docblock") createToggleWrapper) as Hq.
      { apply elem_of_matching. by exists e'. }
      by apply elem_of_nil in Hq.
    + unfold cs2 in He'. rewrite lookup_app_l in He' by lia.
      rewrite lookup_take_lt in He' by lia.
      apply (Hnone e'); [| done | done].
      rewrite deref_app, Hp. done.
  - set (g := fun e => match e with Text _ => e | Element t a _ => Element t a cs2 end).
    pose proof (deref_update_shell g parent q doc ltac:(by intros []) Hnot) as Hshell.
    rewrite (update_Some g parent doc _ Hp) in Hshell.
    simpl in Hshell. rewrite He' in Hshell. simpl in Hshell.
    destruct (deref q doc) as [e0 |] eqn:He0; [| done]. simpl in Hshell.
    injection Hshell as Ha Hel0. by apply (Hnone e0).
Qed.

(** X5: [findOrCreateDocblock] creates at most once: called again on
    the document it has left, it returns the same docblock and changes
    nothing. *)
Theorem findOrCreateDocblock_idempotent doc doc1 (docblock : ref) :
  findOrCreateDocblock doc = (doc1, Return (Some docblock)) ->
  findOrCreateDocblock doc1 = (doc1, Return (Some docblock)).
Proof.
  intros H%findOrCreateDocblock_querySelector. unfold findOrCreateDocblock. by rewrite H.
Qed.

(** On the sample page without a docblock the second call finds the
    docblock the first call has created. *)
Lemma findOrCreateDocblock_idempotent_witness :
  findOrCreateDocblock (fst (findOrCreateDocblock samplePageWithoutDocblock))
  = (fst (findOrCreateDocblock samplePageWithoutDocblock), Return (Some [1; 2])).
Proof.
  apply (findOrCreateDocblock_idempotent samplePageWithoutDocblock). reflexivity.
Defined.

(** *** The routine on a page without a docblock, and run twice *)

Section Runs.

Implicit Types (doc : node) (docblock parent : ref) (w : window).

Lemma created_docblock_injected (injected : list node) doc parent i :
  querySelector "docblock" doc = None ->
  querySelector "fqn" doc = Some (parent ++ [i]) ->
  exists t a before anchor after,
    deref parent doc = Some (Element t a (before ++ anchor :: after)) /\
    length before = i /\
    matchesClass "fqn" anchor = true /\
    exists doc1,
      findOrCreateDocblock doc = (doc1, Return (Some (parent ++ [i + 2]))) /\
      update (inject injected) (parent ++ [i + 2]) doc1 =
      update (fun _ => Element t a
                (before ++ anchor :: createToggleWrapper
                 :: Element "DIV" [("class", "docblock")] injected :: after)) parent doc.
Proof.
  intros Hd Hf.
  destruct (querySelector_child _ _ _ _ Hf) as (t & a & cs & anchor & Hp & Hi & Hs).
  pose proof (lookup_lt_Some _ _ _ Hi) as Hlen.
  exists t, a, (take i cs), anchor, (drop (S i) cs).
  assert (length (take i cs) = i) as Hbefore by (rewrite length_take_le; lia).
  split_and!; [by rewrite (take_drop_middle cs i anchor Hi) | done | done |].
  eexists. split; [apply (findOrCreateDocblock_created doc parent i t a cs Hd Hf Hp Hlen) |].
  rewrite update_app, update_update. apply update_ext. intros e. unfold compose.
  rewrite (take_S_r cs i anchor Hi), <- app_assoc. simpl. f_equal.
  rewrite alter_app_r_alt by lia.
  replace (i + 2 - length (take i cs)) with 2 by lia. simpl.
  by rewrite inject_Element, app_nil_r.
Qed.

(** X6: on a loaded page with no docblock whose first element of class
    [fqn] is the child [i] of an element, either [registerModification]
    leaves the document with, right after that child, the toggle and
    then a DIV of class [docblock] that holds the fragments and nothing
    more; the rest of the document is as it was. *)
Theorem registerModification_creates :
  (forall url lic cmd deps size vw w parent i,
     Js.endsWith (pathname w) "/index.html" = true ->
     querySelector "docblock" (document (pageLoaded w)) = None ->
     querySelector "fqn" (document (pageLoaded w)) = Some (parent ++ [i]) ->
     exists t a before anchor after,
       deref parent (document (pageLoaded w)) = Some (Element t a (before ++ anchor :: after)) /\
       length before = i /\
       matchesClass "fqn" anchor = true /\
       document (pageLoaded (Part000.registerModification url lic cmd deps size vw w)) =
       update (fun _ => Element t a
                 (before ++ anchor :: createToggleWrapper
                  :: Element "DIV" [("class", "docblock")]
                       (injectedByPart000 url lic cmd deps size vw)
                  :: after)) parent (document (pageLoaded w))) /\
  (forall rel href lic cmd size vw w parent i,
     Js.endsWith (pathname w) "/index.html" = true ->
     querySelector "docblock" (document (pageLoaded w)) = None ->
     querySelector "fqn" (document (pageLoaded w)) = Some (parent ++ [i]) ->
     exists t a before anchor after,
       deref parent (document (pageLoaded w)) = Some (Element t a (before ++ anchor :: after)) /\
       length before = i /\
       matchesClass "fqn" anchor = true /\
       document (pageLoaded (IndexTs.Second.registerModification rel href lic cmd size vw w)) =
       update (fun _ => Element t a
                 (before ++ anchor :: createToggleWrapper
                  :: Element "DIV" [("class", "docblock")]
                       (injectedByIndexTs createVerifiedWithSection rel href lic cmd size vw)
                  :: after)) parent (document (pageLoaded w))).
Proof.
  split.
  - intros url lic cmd deps size vw w parent i Hpath Hd Hf.
    destruct (created_docblock_injected (injectedByPart000 url lic cmd deps size vw)
                _ _ _ Hd Hf)
      as (t & a & before & anchor & after & Hp & Hlen & Hs & doc1 & Hfind & Hdoc).
    exists t, a, before, anchor, after. split_and!; [done | done | done |].
    rewrite Part000_registered by done.
    by rewrite (Part000_onDOMContentLoaded _ _ _ _ _ _ _ _ _ Hfind).
  - intros rel href lic cmd size vw w parent i Hpath Hd Hf.
    destruct (created_docblock_injected
                (injectedByIndexTs createVerifiedWithSection rel href lic cmd size vw)
                _ _ _ Hd Hf)
      as (t & a & before & anchor & after & Hp & Hlen & Hs & doc1 & Hfind & Hdoc).
    exists t, a, before, anchor, after. split_and!; [done | done | done |].
    rewrite Second_registered by done.
    by rewrite (Second_onDOMContentLoaded _ _ _ _ _ _ _ _ _ Hfind).
Qed.

(** The sample page without a docblock gets the toggle and the new
    docblock between its heading and its trailer. *)
Lemma registerModification_creates_witness :
  (tagName <$>
     default []
       (childNodes <$> deref [1]
          (document (pageLoaded (Part000.registerModification
             "https://example.com/tree" "MIT" "cargo add foo" [] None []
             (Window "/foo/index.html" samplePageWithoutDocblock []))))))
  = ["H1"; "DIV"; "DIV"; "P"].
Proof.
  destruct (proj1 registerModification_creates
              "https://example.com/tree" "MIT" "cargo add foo" [] None []
              (Window "/foo/index.html" samplePageWithoutDocblock []) [1] 0
              eq_refl eq_refl eq_refl)
    as (t & a & before & anchor & after & H1 & H2 & H3 & H4).
  rewrite H4, deref_update, H1. simpl.
  destruct before; [| done]. vm_compute in H1. injection H1 as <- <- <- <-. reflexivity.
Defined.

Lemma matching_nil_unmarked cls (x : node) :
  matching (matchesClass cls) x = [] -> matchesClass cls x = false.
Proof.
  destruct x as [s | t a cs]; [done |]. rewrite matching_Element.
  by destruct (matchesClass cls (Element t a cs)).
Qed.

Lemma demoted_unmarked (x : node) :
  matching (matchesClass "section-header") x = [] -> downgraded x = demoted x.
Proof.
  intros H. unfold demoted. by rewrite (matching_nil_unmarked _ _ H), downgraded_unmarked.
Qed.

Lemma demoted_createHeader name id :
  downgraded (createHeader name id) = demoted (createHeader name id).
Proof. reflexivity. Qed.

Lemma injectedByPart000_demoted url lic cmd deps size vw :
  downgraded <$> injectedByPart000 url lic cmd deps size vw
  = demoted <$> injectedByPart000 url lic cmd deps size vw.
Proof.
  apply list_fmap_ext. intros k x Hx. apply list_elem_of_lookup_2 in Hx.
  unfold injectedByPart000 in Hx. rewrite !elem_of_app, !elem_of_cons in Hx.
  destruct Hx as [[-> | [-> | [-> | [-> | Hx]]]] | [Hx | [-> | [-> | [-> | Hx]]]]];
    try (by apply elem_of_nil in Hx);
    try apply demoted_createHeader;
    try (by apply demoted_unmarked).
  - apply demoted_unmarked, createDependenciesSection_unmarked.
  - destruct size as [[b | text] |]; [| | by apply elem_of_nil in Hx];
      rewrite !elem_of_cons in Hx;
      (destruct Hx as [-> | [-> | Hx]];
       [apply demoted_createHeader | by apply demoted_unmarked | by apply elem_of_nil in Hx]).
  - apply demoted_unmarked, createVerifiedWithSection_unmarked.
Qed.

Lemma injectedByIndexTs_demoted section rel href lic cmd size vw :
  (forall vw, matching (matchesClass "section-header") (section vw) = []) ->
  downgraded <$> injectedByIndexTs section rel href lic cmd size vw
  = demoted <$> injectedByIndexTs section rel href lic cmd size vw.
Proof.
  intros Hsection.
  apply list_fmap_ext. intros k x Hx. apply list_elem_of_lookup_2 in Hx.
  unfold injectedByIndexTs in Hx. rewrite !elem_of_app, !elem_of_cons in Hx.
  destruct Hx as [[-> | [-> | Hx]] | [Hx | [-> | [-> | [-> | Hx]]]]];
    try (by apply elem_of_nil in Hx);
    try apply demoted_createHeader;
    try (by apply demoted_unmarked).
  destruct size as [text |]; [| by apply elem_of_nil in Hx];
      rewrite !elem_of_cons in Hx;
      (destruct Hx as [-> | [-> | Hx]];
       [apply demoted_createHeader | by apply demoted_unmarked | by apply elem_of_nil in Hx]).
Qed.

Lemma inject_shell (injected : list node) (e : node) :
  attributes (inject injected e) = attributes e /\
  isElement (inject injected e) = isElement e.
Proof. by destruct e. Qed.

(** Two runs on a document on which [findOrCreateDocblock] returns a
    docblock: the second finds the same docblock. *)
Lemma inject_twice (first second : list node) doc doc1 docblock t a old :
  findOrCreateDocblock doc = (doc1, Return (Some docblock)) ->
  deref docblock doc1 = Some (Element t a old) ->
  findOrCreateDocblock (update (inject first) docblock doc1)
  = (update (inject first) docblock doc1, Return (Some docblock)) /\
  deref docblock (update (inject second) docblock (update (inject first) docblock doc1))
  = Some (Element t a
            (second ++ (downgraded <$> first)
             ++ (downgraded <$> (downgraded <$> old)))).
Proof.
  intros Hfind Hd. split.
  - pose proof (findOrCreateDocblock_querySelector _ _ _ Hfind) as Hq.
    unfold findOrCreateDocblock.
    by rewrite (querySelector_update "docblock" _ _ _ (inject_shell first) Hq).
  - rewrite !deref_update, Hd. simpl. rewrite !inject_Element.
    by rewrite fmap_app.
Qed.

End Runs.

(** X7: when the entry routine is called twice, with the same
    arguments or with others, on a page whose docblock exists or is
    created by the first run, the second run finds the same docblock:
    it holds the fragments of the second run, then those of the first
    run with their headings demoted to H2 and nothing else changed,
    then the former content after two passes. *)
Theorem registered_twice :
  (forall url1 lic1 cmd1 deps1 size1 vw1 url2 lic2 cmd2 deps2 size2 vw2 w doc1 docblock,
     Js.endsWith (pathname w) "/index.html" = true ->
     findOrCreateDocblock (document (pageLoaded w)) = (doc1, Return (Some docblock)) ->
     exists t a old,
       deref docblock doc1 = Some (Element t a old) /\
       deref docblock
         (document (pageLoaded
            (Part000.registerModification url2 lic2 cmd2 deps2 size2 vw2
               (Part000.registerModification url1 lic1 cmd1 deps1 size1 vw1 w))))
       = Some (Element t a
           (injectedByPart000 url2 lic2 cmd2 deps2 size2 vw2
            ++ (demoted <$> injectedByPart000 url1 lic1 cmd1 deps1 size1 vw1)
            ++ (downgraded <$> (downgraded <$> old))))) /\
  (forall rel1 href1 lic1 cmd1 size1 vw1 rel2 href2 lic2 cmd2 size2 vw2 w doc1 docblock,
     Js.endsWith (pathname w) "/index.html" = true ->
     findOrCreateDocblock (document (pageLoaded w)) = (doc1, Return (Some docblock)) ->
     exists t a old,
       deref docblock doc1 = Some (Element t a old) /\
       deref docblock
         (document (pageLoaded
            (IndexTs.Second.registerModification rel2 href2 lic2 cmd2 size2 vw2
               (IndexTs.Second.registerModification rel1 href1 lic1 cmd1 size1 vw1 w))))
       = Some (Element t a
           (injectedByIndexTs createVerifiedWithSection rel2 href2 lic2 cmd2 size2 vw2
            ++ (demoted <$> injectedByIndexTs createVerifiedWithSection
                              rel1 href1 lic1 cmd1 size1 vw1)
            ++ (downgraded <$> (downgraded <$> old))))) /\
  (forall rel1 href1 lic1 cmd1 size1 vw1 rel2 href2 lic2 cmd2 size2 vw2 w docblock,
     querySelector "docblock" (document w) = Some docblock ->
     exists t a old,
       deref docblock (document w) = Some (Element t a old) /\
       deref docblock
         (document
            (IndexTs.First.modifyDocblock rel2 href2 lic2 cmd2 size2 vw2
               (IndexTs.First.modifyDocblock rel1 href1 lic1 cmd1 size1 vw1 w)))
       = Some (Element t a
           (injectedByIndexTs IndexTs.First.createVerifiedWithSection
              rel2 href2 lic2 cmd2 size2 vw2
            ++ (demoted <$> injectedByIndexTs IndexTs.First.createVerifiedWithSection
                              rel1 href1 lic1 cmd1 size1 vw1)
            ++ (downgraded <$> (downgraded <$> old))))).
Proof.
  split_and!.
  - intros url1 lic1 cmd1 deps1 size1 vw1 url2 lic2 cmd2 deps2 size2 vw2 w doc1 docblock
      Hpath Hfind.
    destruct (findOrCreateDocblock_element _ _ _ Hfind) as (t & a & old & Hd).
    exists t, a, old. split; [done |].
    destruct (inject_twice (injectedByPart000 url1 lic1 cmd1 deps1 size1 vw1)
                (injectedByPart000 url2 lic2 cmd2 deps2 size2 vw2) _ _ _ _ _ _ Hfind Hd)
      as [Hfind2 Hres].
    rewrite Part000_registered.
    2:{ unfold Part000.registerModification. by rewrite Hpath. }
    rewrite Part000_registered by done.
    rewrite (Part000_onDOMContentLoaded url1 _ _ _ _ _ _ _ _ Hfind). simpl fst.
    rewrite (Part000_onDOMContentLoaded url2 _ _ _ _ _ _ _ _ Hfind2). simpl fst.
    by rewrite Hres, injectedByPart000_demoted.
  - intros rel1 href1 lic1 cmd1 size1 vw1 rel2 href2 lic2 cmd2 size2 vw2 w doc1 docblock
      Hpath Hfind.
    destruct (findOrCreateDocblock_element _ _ _ Hfind) as (t & a & old & Hd).
    exists t, a, old. split; [done |].
    destruct (inject_twice
                (injectedByIndexTs createVerifiedWithSection rel1 href1 lic1 cmd1 size1 vw1)
                (injectedByIndexTs createVerifiedWithSection rel2 href2 lic2 cmd2 size2 vw2)
                _ _ _ _ _ _ Hfind Hd) as [Hfind2 Hres].
    rewrite Second_registered.
    2:{ unfold IndexTs.Second.registerModification. by rewrite Hpath. }
    rewrite Second_registered by done.
    rewrite (Second_onDOMContentLoaded rel1 _ _ _ _ _ _ _ _ Hfind). simpl fst.
    rewrite (Second_onDOMContentLoaded rel2 _ _ _ _ _ _ _ _ Hfind2). simpl fst.
    rewrite Hres, injectedByIndexTs_demoted; [done |].
    apply createVerifiedWithSection_unmarked.
  - intros rel1 href1 lic1 cmd1 size1 vw1 rel2 href2 lic2 cmd2 size2 vw2 w docblock Hq.
    destruct (querySelector_Some _ _ _ Hq) as (t & a & old & Hd & _).
    exists t, a, old. split; [done |].
    unfold IndexTs.First.modifyDocblock. simpl document.
    rewrite (First_modifyDocument rel1 _ _ _ _ _ _ _ Hq).
    rewrite (First_modifyDocument rel2 href2 lic2 cmd2 size2 vw2 _ docblock).
    2:{ apply querySelector_update; [apply inject_shell | done]. }
    rewrite !deref_update, Hd. simpl. rewrite !inject_Element, fmap_app.
    rewrite injectedByIndexTs_demoted; [done |].
    apply First_createVerifiedWithSection_unmarked.
Qed.

(** Two calls on the sample page, the first with a code size and the
    second without: the three headings of the second run are H1, the
    four of the first run H2, and the heading "Usage" of the page is an
    H3; the licence of the second call comes first. *)
Lemma registered_twice_witness :
  (tagName <$>
     filter (fun x => matchesClass "section-header" x = true)
       (default []
          (childNodes <$> deref [1; 1]
             (document (pageLoaded
                (Part000.registerModification
                   "https://example.com/tree/v2" "Apache-2.0" "cargo add foo@2" []
                   None [("https://example.com/problem", "https://example.com/solution.rs")]
                   (Part000.registerModification
                      "https://example.com/tree" "MIT" "cargo add foo" []
                      (Some (Part000.SizeString "1.5 KiB")) []
                      (Window "/foo/index.html" samplePage []))))))))
  = ["H1"; "H1"; "H1"; "H2"; "H2"; "H2"; "H2"; "H3"; "H6"] /\
  (default []
     (childNodes <$> deref [1; 1]
        (document (pageLoaded
           (Part000.registerModification
              "https://example.com/tree/v2" "Apache-2.0" "cargo add foo@2" []
              None [("https://example.com/problem", "https://example.com/solution.rs")]
              (Part000.registerModification
                 "https://example.com/tree" "MIT" "cargo add foo" []
                 (Some (Part000.SizeString "1.5 KiB")) []
                 (Window "/foo/index.html" samplePage []))))))) !! 0
  = Some (Part000.createFirstSection "https://example.com/tree/v2" "Apache-2.0").
Proof.
  destruct (proj1 registered_twice
              "https://example.com/tree" "MIT" "cargo add foo" []
              (Some (Part000.SizeString "1.5 KiB")) []
              "https://example.com/tree/v2" "Apache-2.0" "cargo add foo@2" []
              None [("https://example.com/problem", "https://example.com/solution.rs")]
              (Window "/foo/index.html" samplePage []) samplePage [1; 1]
              eq_refl eq_refl) as (t & a & old & H1 & H2).
  vm_compute in H1. injection H1 as <- <- <-. rewrite H2. split; reflexivity.
Defined.

(** *** What the downgrade pass keeps *)

Section Pass.

Implicit Types (doc n e d : node) (docblock r q p : ref) (f : node -> node).

Lemma deref_update_disjoint f r q n :
  ~ r `prefix_of` q -> ~ q `prefix_of` r -> deref q (update f r n) = deref q n.
Proof.
  revert q n. induction r as [| i r IH]; intros q n Hr Hq.
  - destruct Hr. apply prefix_nil.
  - destruct q as [| j q]; [destruct Hq; apply prefix_nil |].
    destruct n as [s | t a cs]; [done |]. simpl.
    destruct (decide (i = j)) as [<- | Hne]; [| by rewrite list_lookup_alter_ne].
    rewrite list_lookup_alter_eq. destruct (cs !! i) as [c |]; simpl; [| done].
    apply IH; intros H; [apply Hr | apply Hq]; by apply prefix_cons.
Qed.

Lemma update_same r n e : deref r n = Some e -> update (fun _ => e) r n = n.
Proof.
  intros H. rewrite <- (update_id r n) at 2.
  by rewrite (update_Some (fun x => x) r n e H).
Qed.

Lemma textContent_children_ext (cs cs' : list node) :
  Forall2 (fun c c' => textContent c = textContent c') cs cs' ->
  fold_right (fun c rest => textContent c +:+ rest) "" cs
  = fold_right (fun c rest => textContent c +:+ rest) "" cs'.
Proof. induction 1 as [| c c' cs cs' Hc _ IH]; simpl; [done |]. by rewrite Hc, IH. Qed.

Lemma textContent_downgraded n : textContent (downgraded n) = textContent n.
Proof.
  induction n as [s | t a cs IH] using node_ind'; [done |].
  assert (textContent (Element t a (downgraded <$> cs)) = textContent (Element t a cs)) as H.
  { simpl. apply textContent_children_ext. apply Forall2_fmap_l.
    apply Forall_Forall2_diag. exact IH. }
  change (downgraded (Element t a cs)) with
    (if matchesClass "section-header" (Element t a cs)
     then replacementFor (Element t a (downgraded <$> cs))
     else Element t a (downgraded <$> cs)).
  destruct (matchesClass _ _); [| done]. by rewrite replacementFor_Element.
Qed.

Lemma textContent_update f r n :
  (forall e, textContent (f e) = textContent e) ->
  textContent (update f r n) = textContent n.
Proof.
  intros Hf. revert n. induction r as [| i r IH]; intros n; simpl; [done |].
  destruct n as [s | t a cs]; [done |]. simpl.
  apply textContent_children_ext.
  apply Forall2_same_length_lookup. split; [by rewrite length_alter |].
  intros j c c' Hc Hc'. destruct (decide (i = j)) as [<- | Hne].
  - rewrite list_lookup_alter_eq, Hc' in Hc. simpl in Hc. simplify_eq. apply IH.
  - rewrite list_lookup_alter_ne in Hc by done. congruence.
Qed.

Lemma matchingFrom_ext sel i (cs cs' : list node) :
  Forall2 (fun c c' => matching sel c = matching sel c') cs cs' ->
  matchingFrom sel i cs = matchingFrom sel i cs'.
Proof.
  intros H. revert i. induction H as [| c c' cs cs' Hc _ IH]; intros i; simpl; [done |].
  by rewrite Hc, IH.
Qed.

Lemma matching_downgraded n :
  allMarked htmlElement n = true ->
  matching (matchesClass "section-header") (downgraded n)
  = matching (matchesClass "section-header") n.
Proof.
  induction n as [s | t a cs IH] using node_ind'; [done |].
  intros H. simpl in H. apply andb_true_iff in H as [Hself Hcs].
  rewrite forallb_forall in Hcs.
  assert (matchingFrom (matchesClass "section-header") 0 (downgraded <$> cs)
          = matchingFrom (matchesClass "section-header") 0 cs) as Hfrom.
  { apply matchingFrom_ext, Forall2_fmap_l, Forall_Forall2_diag.
    rewrite Forall_forall in IH |- *. intros c Hc. apply IH; [done |].
    apply Hcs. by apply list_elem_of_In. }
  change (downgraded (Element t a cs)) with
    (if matchesClass "section-header" (Element t a cs)
     then replacementFor (Element t a (downgraded <$> cs))
     else Element t a (downgraded <$> cs)).
  destruct (matchesClass "section-header" (Element t a cs)) eqn:Hs.
  - erewrite replacementFor_html by exact Hself.
    by rewrite !matching_Element, Hfrom.
  - by rewrite !matching_Element, Hfrom.
Qed.

Lemma downgradedTagName_deepest e :
  deepest e = true -> downgradedTagName (tagName e) = tagName e.
Proof.
  unfold deepest, downgradedTagName. simpl existsb. intros H.
  repeat (destruct (String.eqb (tagName e) _); [done |]). done.
Qed.

Lemma downgraded_settled n :
  allMarked (fun e => htmlElement e && deepest e) n = true -> downgraded n = n.
Proof.
  induction n as [s | t a cs IH] using node_ind'; [done |].
  intros H. simpl in H. apply andb_true_iff in H as [Hself Hcs].
  rewrite forallb_forall in Hcs.
  assert (downgraded <$> cs = cs) as Hfix.
  { rewrite <- (list_fmap_id cs) at 2. apply list_fmap_ext. intros k c Hc.
    rewrite Forall_forall in IH. apply list_elem_of_lookup_2 in Hc.
    apply IH; [done |]. apply Hcs. by apply list_elem_of_In. }
  change (downgraded (Element t a cs)) with
    (if matchesClass "section-header" (Element t a cs)
     then replacementFor (Element t a (downgraded <$> cs))
     else Element t a (downgraded <$> cs)).
  rewrite Hfix. destruct (matchesClass "section-header" (Element t a cs)); [| done].
  apply andb_true_iff in Hself as [Hhtml Hdeep].
  rewrite (replacementFor_html t a cs Hhtml). f_equal.
  apply (downgradedTagName_deepest (Element t a cs) Hdeep).
Qed.

End Pass.

(** X8: the pass, which walks the list of matches taken at its start
    and replaces them one by one in the changing document, leaves
    exactly the document in which every marked descendant of the
    docblock has been replaced: the docblock keeps its tag name and
    attributes, marked or not; every position below it holds the
    downgraded form of the node that was there; and what is neither in
    the docblock nor above it is as it was. *)
Theorem downgradeSectionHeaders_structural (docblock : ref) (doc : node) :
  downgradeSectionHeaders docblock doc = update downgradedChildren docblock doc /\
  (forall t a cs,
     deref docblock doc = Some (Element t a cs) ->
     deref docblock (downgradeSectionHeaders docblock doc)
     = Some (Element t a (downgraded <$> cs))) /\
  (forall p : ref,
     p <> [] ->
     deref (docblock ++ p) (downgradeSectionHeaders docblock doc)
     = downgraded <$> deref (docblock ++ p) doc) /\
  (forall q : ref,
     ~ docblock `prefix_of` q -> ~ q `prefix_of` docblock ->
     deref q (downgradeSectionHeaders docblock doc) = deref q doc).
Proof.
  rewrite downgradeSectionHeaders_update. split_and!.
  - done.
  - intros t a cs H. by rewrite deref_update, H.
  - intros p Hp. rewrite !deref_app, deref_update.
    destruct (deref docblock doc) as [d |]; simpl; [| done].
    by apply deref_downgradedChildren.
  - intros q H1 H2. by apply deref_update_disjoint.
Qed.

(** On the sample page the heading of the page, outside the docblock,
    is kept, and the notes, an H6, are kept at their place in it. *)
Lemma downgradeSectionHeaders_structural_witness :
  deref [1; 0] (downgradeSectionHeaders [1; 1] samplePage) = deref [1; 0] samplePage /\
  deref ([1; 1] ++ [2]) (downgradeSectionHeaders [1; 1] samplePage)
  = downgraded <$> deref ([1; 1] ++ [2]) samplePage.
Proof.
  destruct (downgradeSectionHeaders_structural [1; 1] samplePage) as (_ & _ & H3 & H4).
  split.
  - apply H4; intros [k Hk]; discriminate Hk.
  - apply H3. discriminate.
Defined.

(** X9: the pass changes no text: the text content of the document
    after it is the text content before. *)
Theorem downgradeSectionHeaders_textContent (docblock : ref) (doc : node) :
  textContent (downgradeSectionHeaders docblock doc) = textContent doc.
Proof.
  rewrite downgradeSectionHeaders_update. apply textContent_update.
  intros [s | t a cs]; [done |].
  simpl. apply textContent_children_ext, Forall2_fmap_l, Forall_Forall2_diag.
  apply Forall_forall. intros c _. apply textContent_downgraded.
Qed.

(** X10: the pass keeps the marker class where it was: when the marked
    elements of the docblock are HTML elements, a query for the marked
    descendants of the docblock gives, after the pass, the positions it
    gave before, so that a later pass replaces the same elements
    again. *)
Theorem downgradeSectionHeaders_keeps_marks (docblock : ref) (doc d : node) :
  deref docblock doc = Some d ->
  allMarked htmlElement d = true ->
  querySelectorAll docblock "section-header" (downgradeSectionHeaders docblock doc)
  = querySelectorAll docblock "section-header" doc.
Proof.
  intros Hd Hwf. unfold querySelectorAll.
  rewrite downgradeSectionHeaders_update, deref_update, Hd. simpl. f_equal.
  destruct d as [s | t a cs]; [done |]. simpl in *.
  apply andb_true_iff in Hwf as [_ Hcs]. rewrite forallb_forall in Hcs.
  apply matchingFrom_ext, Forall2_fmap_l, Forall_Forall2_diag.
  apply Forall_forall. intros c Hc. apply matching_downgraded, Hcs.
  by apply list_elem_of_In.
Qed.

Lemma downgradeSectionHeaders_keeps_marks_witness :
  querySelectorAll [1; 1] "section-header" (downgradeSectionHeaders [1; 1] samplePage)
  = [[1; 1; 1]; [1; 1; 2]].
Proof.
  rewrite (downgradeSectionHeaders_keeps_marks [1; 1] samplePage
             (Element "DIV" [("class", "docblock")] [
                Element "P" [] [Text "A library."];
                Element "H1" [("id", "usage"); ("class", "section-header")] [
                  Element "A" [("href", "#usage")] [Text "Usage"]];
                Element "H6" [("id", "notes"); ("class", "small section-header")]
                  [Text "Notes"]])
             eq_refl eq_refl).
  reflexivity.
Defined.

(** X11: the pass is the identity on a document in whose docblock every
    marked element is an HTML element with a tag name other than H1 to
    H5: headings that have reached H6 stay as they are, whatever the
    number of passes. *)
Theorem downgradeSectionHeaders_settled (docblock : ref) (doc d : node) :
  deref docblock doc = Some d ->
  allMarked (fun e => htmlElement e && deepest e) d = true ->
  downgradeSectionHeaders docblock doc = doc.
Proof.
  intros Hd Hsettled. rewrite downgradeSectionHeaders_update.
  rewrite (update_Some downgradedChildren docblock doc d Hd).
  assert (downgradedChildren d = d) as ->; [| by apply update_same].
  destruct d as [s | t a cs]; [done |]. simpl in *.
  apply andb_true_iff in Hsettled as [_ Hcs]. rewrite forallb_forall in Hcs.
  f_equal. rewrite <- (list_fmap_id cs) at 2. apply list_fmap_ext. intros k c Hc.
  apply downgraded_settled, Hcs. apply list_elem_of_In. by eapply list_elem_of_lookup_2.
Qed.

(** Five passes on the sample page bring its headings to H6, and the
    sixth pass changes nothing. *)
Lemma downgradeSectionHeaders_settled_witness :
  downgradeSectionHeaders [1; 1] (Nat.iter 5 (downgradeSectionHeaders [1; 1]) samplePage)
  = Nat.iter 5 (downgradeSectionHeaders [1; 1]) samplePage.
Proof.
  apply (downgradeSectionHeaders_settled [1; 1] _
           (Element "DIV" [("class", "docblock")] [
              Element "P" [] [Text "A library."];
              Element "H6" [("id", "usage"); ("class", "section-header")] [
                Element "A" [("href", "#usage")] [Text "Usage"]];
              Element "H6" [("id", "notes"); ("class", "small section-header")]
                [Text "Notes"]])); reflexivity.
Defined.

(** *** What the fragments are made of *)

Section Markup.

Local Abbreviation tags := ["UL"; "LI"; "A"; "CODE"; "PRE"; "H1"; "DIV"; "STRONG"; "IMG"].
Local Abbreviation attrs := ["href"; "class"; "id"; "src"; "alt"; "title"; "width"; "height"].

Lemma forallb_fmap_madeOf {A} (f : A -> node) (l : list A) :
  (forall x, madeOf tags attrs (f x) = true) ->
  forallb (madeOf tags attrs) (f <$> l) = true.
Proof.
  intros H. induction l as [| x l IH]; [done |].
  change (madeOf tags attrs (f x) && forallb (madeOf tags attrs) (f <$> l) = true).
  by rewrite H, IH.
Qed.

Lemma madeOf_createVerifiedWithSection vw :
  madeOf tags attrs (createVerifiedWithSection vw) = true.
Proof.
  rewrite createVerifiedWithSection_shape.
  change (forallb (madeOf tags attrs)
            (match vw with
             | [] =>
                 [Element "STRONG" [] [createWarningMark; Text " This library is not verified."]]
             | [_] => [createHeavyCheckMark; Text " This library verified with 1 solution."]
             | _ :: _ :: _ =>
                 [createHeavyCheckMark;
                  Text (" This library verified with " +:+ Js.string_of_nat (length vw)
                        +:+ " solutions.")]
             end ++ [Element "UL" [] (verifiedWithItem <$> vw)]) = true).
  rewrite forallb_app. apply andb_true_iff. split.
  - by destruct vw as [| p1 [| p2 rest]].
  - simpl. rewrite forallb_fmap_madeOf; [done |]. by intros [problemURL blobURL].
Qed.

Lemma madeOf_First_createVerifiedWithSection vw :
  madeOf tags attrs (IndexTs.First.createVerifiedWithSection vw) = true.
Proof.
  rewrite First_createVerifiedWithSection_shape. simpl.
  apply forallb_fmap_madeOf. by intros [problemURL blobURL].
Qed.

Lemma madeOf_createDependenciesSection items :
  madeOf tags attrs (toNode (Part000.createDependenciesSection items)) = true.
Proof.
  destruct items as [| pair items]; [done |].
  rewrite createDependenciesSection_cons.
  change (forallb (madeOf tags attrs) (Part000.dependencyItem <$> pair :: items) = true).
  apply forallb_fmap_madeOf. by intros [text href].
Qed.

End Markup.

(** X12: whatever strings and lists the routine is given, the
    fragments it prepends are made of text and of elements of nine tag
    names with attributes of eight names: what it is given ends up in
    text nodes and in attribute values, and never decides an element or
    an attribute. *)
Theorem injected_markup_fixed :
  (forall url lic cmd deps size vw,
     forallb (madeOf ["UL"; "LI"; "A"; "CODE"; "PRE"; "H1"; "DIV"; "STRONG"; "IMG"]
                     ["href"; "class"; "id"; "src"; "alt"; "title"; "width"; "height"])
       (injectedByPart000 url lic cmd deps size vw) = true) /\
  (forall rel href lic cmd size vw,
     forallb (madeOf ["UL"; "LI"; "A"; "CODE"; "PRE"; "H1"; "DIV"; "STRONG"; "IMG"]
                     ["href"; "class"; "id"; "src"; "alt"; "title"; "width"; "height"])
       (injectedByIndexTs createVerifiedWithSection rel href lic cmd size vw) = true) /\
  (forall rel href lic cmd size vw,
     forallb (madeOf ["UL"; "LI"; "A"; "CODE"; "PRE"; "H1"; "DIV"; "STRONG"; "IMG"]
                     ["href"; "class"; "id"; "src"; "alt"; "title"; "width"; "height"])
       (injectedByIndexTs IndexTs.First.createVerifiedWithSection rel href lic cmd size vw)
     = true).
Proof.
  assert (forall (P : node -> bool) x l, forallb P (x :: l) = P x && forallb P l) as Hcons
    by done.
  split_and!.
  - intros url lic cmd deps size vw. unfold injectedByPart000.
    rewrite !forallb_app, !Hcons, !andb_true_iff. split_and!; try done.
    + apply madeOf_createDependenciesSection.
    + by destruct size as [[b | text] |].
    + apply madeOf_createVerifiedWithSection.
  - intros rel href lic cmd size vw. unfold injectedByIndexTs.
    rewrite !forallb_app, !Hcons, !andb_true_iff. split_and!; try done.
    + by destruct size.
    + apply madeOf_createVerifiedWithSection.
  - intros rel href lic cmd size vw. unfold injectedByIndexTs.
    rewrite !forallb_app, !Hcons, !andb_true_iff. split_and!; try done.
    + by destruct size.
    + apply madeOf_First_createVerifiedWithSection.
Qed.

(** *** The reach of the routine *)

(** X13: on a page that has a docblock the routine changes the docblock
    and nothing else: the document it leaves is the former one with the
    docblock rewritten, and every node that is neither inside the
    docblock nor above it is what it was. *)
Theorem routine_is_local :
  (forall url lic cmd deps size vw w (docblock q : ref),
     Js.endsWith (pathname w) "/index.html" = true ->
     querySelector "docblock" (document (pageLoaded w)) = Some docblock ->
     ~ docblock `prefix_of` q -> ~ q `prefix_of` docblock ->
     deref q (document (pageLoaded (Part000.registerModification url lic cmd deps size vw w)))
     = deref q (document (pageLoaded w))) /\
  (forall rel href lic cmd size vw w (docblock q : ref),
     Js.endsWith (pathname w) "/index.html" = true ->
     querySelector "docblock" (document (pageLoaded w)) = Some docblock ->
     ~ docblock `prefix_of` q -> ~ q `prefix_of` docblock ->
     deref q (document (pageLoaded
                (IndexTs.Second.registerModification rel href lic cmd size vw w)))
     = deref q (document (pageLoaded w))) /\
  (forall rel href lic cmd size vw w (docblock q : ref),
     querySelector "docblock" (document w) = Some docblock ->
     ~ docblock `prefix_of` q -> ~ q `prefix_of` docblock ->
     deref q (document (IndexTs.First.modifyDocblock rel href lic cmd size vw w))
     = deref q (document w)).
Proof.
  split_and!.
  - intros url lic cmd deps size vw w docblock q Hpath Hq H1 H2.
    rewrite Part000_registered by done.
    rewrite (Part000_onDOMContentLoaded _ _ _ _ _ _ _ (document (pageLoaded w)) docblock).
    + by apply deref_update_disjoint.
    + unfold findOrCreateDocblock. by rewrite Hq.
  - intros rel href lic cmd size vw w docblock q Hpath Hq H1 H2.
    rewrite Second_registered by done.
    rewrite (Second_onDOMContentLoaded _ _ _ _ _ _ _ (document (pageLoaded w)) docblock).
    + by apply deref_update_disjoint.
    + unfold findOrCreateDocblock. by rewrite Hq.
  - intros rel href lic cmd size vw w docblock q Hq H1 H2.
    unfold IndexTs.First.modifyDocblock. simpl document.
    rewrite (First_modifyDocument _ _ _ _ _ _ _ _ Hq).
    by apply deref_update_disjoint.
Qed.

(** The heading of the sample page, before the docblock, is kept. *)
Lemma routine_is_local_witness :
  deref [1; 0]
    (document (pageLoaded (Part000.registerModification
       "https://example.com/tree" "MIT" "cargo add foo" [] None []
       (Window "/foo/index.html" samplePage []))))
  = Some (Element "H1" [("class", "fqn")] [Text "Crate foo"]).
Proof.
  rewrite (proj1 routine_is_local
             "https://example.com/tree" "MIT" "cargo add foo" [] None []
             (Window "/foo/index.html" samplePage []) [1; 1] [1; 0] eq_refl eq_refl).
  - reflexivity.
  - intros [k Hk]. discriminate Hk.
  - intros [k Hk]. discriminate Hk.
Defined.

(** X14: when the page has no docblock and its root element is the
    one of class [fqn], the insertion after the anchor raises
    [HierarchyRequestError]: [findOrCreateDocblock] and the listener of
    either [registerModification] end with that exception, and the
    document is as it was. *)
Theorem anchor_at_root_throws (doc : node) :
  querySelector "docblock" doc = None ->
  matchesClass "fqn" doc = true ->
  findOrCreateDocblock doc = (doc, Throw HierarchyRequestError) /\
  (forall url lic cmd deps size vw,
     Part000.onDOMContentLoaded url lic cmd deps size vw doc
     = (doc, Throw HierarchyRequestError)) /\
  (forall rel href lic cmd size vw,
     IndexTs.Second.onDOMContentLoaded rel href lic cmd size vw doc
     = (doc, Throw HierarchyRequestError)) /\
  (forall url lic cmd deps size vw path,
     document (pageLoaded (Part000.registerModification url lic cmd deps size vw
                             (Window path doc [])))
     = doc).
Proof.
  intros Hd Hroot.
  assert (findOrCreateDocblock doc = (doc, Throw HierarchyRequestError)) as Hfind.
  { unfold findOrCreateDocblock. rewrite Hd.
    assert (querySelector "fqn" doc = Some []) as ->; [| done].
    unfold querySelector. destruct doc as [s | t a cs]; [done |].
    by rewrite matching_Element, Hroot. }
  split_and!; [done | | |].
  - intros. unfold Part000.onDOMContentLoaded. by rewrite Hfind.
  - intros. unfold IndexTs.Second.onDOMContentLoaded. by rewrite Hfind.
  - intros url lic cmd deps size vw path. unfold Part000.registerModification. simpl pathname.
    destruct (Js.endsWith path "/index.html"); simpl negb; cbv iota; [| done].
    rewrite pageLoaded_addEventListener.
    change (document (pageLoaded (Window path doc []))) with doc.
    unfold Part000.onDOMContentLoaded. by rewrite Hfind.
Qed.

Lemma anchor_at_root_throws_witness :
  findOrCreateDocblock (Element "HTML" [("class", "fqn")] [Element "BODY" [] []])
  = (Element "HTML" [("class", "fqn")] [Element "BODY" [] []], Throw HierarchyRequestError).
Proof.
  exact (proj1 (anchor_at_root_throws
                  (Element "HTML" [("class", "fqn")] [Element "BODY" [] []])
                  eq_refl eq_refl)).
Defined.
